(** * Reservation migration pipeline (PostgreSQL to MongoDB)

    A shallow embedding of [data_migration_postgres_to_mongo.py] and
    [scriptrans.py]: the Python values carried by a record, the ISO-8601
    rendering of dates, the in-place normalisation of records, the
    reconstruction query over the relational source, the bulk load and the
    orchestration with its cleanup block. *)

From Stdlib Require Import ZArith NArith List String Ascii Lia Bool.
From stdpp Require Import base list strings gmap.

Local Open Scope string_scope.
Local Open Scope list_scope.

(** ** Python values *)

(** [datetime.date]: year, month, day. *)
Record date := mkDate { year : N; month : N; day : N }.

(** [datetime.datetime] is a subclass of [date] that adds the time of day and
    an optional UTC offset (whole seconds; [None] for a naive timestamp). *)
Record datetime := mkDateTime {
  dt_date : date;
  hour : N;
  minute : N;
  second : N;
  microsecond : N;
  utcoffset : option Z
}.

(** The runtime values a record field can hold.  [VOther] stands for any
    object of another class (Decimal, time, timedelta, ...), of which the
    programs only ever test the class. *)
Inductive value :=
| VNone
| VBool (b : bool)
| VInt (n : Z)
| VFloat (bits : Z)
| VStr (s : string)
| VDate (d : date)
| VDateTime (t : datetime)
| VOther (repr : string).

(** [isinstance(value, (datetime, date))] *)
Definition isinstance_date (v : value) : bool :=
  match v with
  | VDate _ | VDateTime _ => true
  | _ => false
  end.

(** ** Decimal formatting *)

Definition digit (n : N) : ascii := ascii_of_N (48 + n mod 10).

(** The [k] least significant decimal digits of [n], most significant first. *)
Fixpoint digits (k : nat) (n : N) : string :=
  match k with
  | O => ""
  | S k' => digits k' (n / 10) +:+ String (digit n) ""
  end.

Fixpoint ndigits_aux (fuel : nat) (n : N) : nat :=
  match fuel with
  | O => 1
  | S fuel' => if (n <? 10)%N then 1 else S (ndigits_aux fuel' (n / 10))
  end.

(** Number of decimal digits of [n] (at least one). *)
Definition ndigits (n : N) : nat := ndigits_aux (N.size_nat n) n.

(** ["%0<width>d" % n] for a non-negative [n]: zero padded to [width], never
    truncated. *)
Definition fmt_0d (width : nat) (n : N) : string :=
  digits (Nat.max width (ndigits n)) n.

(** [str(n)] for a non-negative integer. *)
Definition str_N (n : N) : string := fmt_0d 1 n.

(** ** ISO-8601 rendering *)

(** [date.isoformat()]: ["%04d-%02d-%02d"]. *)
Definition date_isoformat (d : date) : string :=
  fmt_0d 4 (year d) +:+ "-" +:+ fmt_0d 2 (month d) +:+ "-" +:+ fmt_0d 2 (day d).

(** [_format_time] with [timespec='auto']: the microseconds are printed only
    when they are not zero. *)
Definition format_time (hh mm ss us : N) : string :=
  fmt_0d 2 hh +:+ ":" +:+ fmt_0d 2 mm +:+ ":" +:+ fmt_0d 2 ss +:+
  (if (us =? 0)%N then "" else "." +:+ fmt_0d 6 us).

(** [_format_offset]: sign, hours and minutes, and the seconds when there are
    some. *)
Definition format_offset (off : option Z) : string :=
  match off with
  | None => ""
  | Some o =>
      let sign := if (o <? 0)%Z then "-" else "+" in
      let a := Z.to_N (Z.abs o) in
      let hh := (a / 3600)%N in
      let mm := ((a mod 3600) / 60)%N in
      let ss := (a mod 60)%N in
      sign +:+ fmt_0d 2 hh +:+ ":" +:+ fmt_0d 2 mm +:+
      (if (ss =? 0)%N then "" else ":" +:+ fmt_0d 2 ss)
  end.

(** [datetime.isoformat()] with the default separator ['T']. *)
Definition datetime_isoformat (t : datetime) : string :=
  date_isoformat (dt_date t) +:+ "T" +:+
  format_time (hour t) (minute t) (second t) (microsecond t) +:+
  format_offset (utcoffset t).

(** ** Python dictionaries

    A [dict] keeps its keys in insertion order and holds each key once. *)

Abbreviation dict := (list (string * value)).

Definition keys (d : dict) : list string := map fst d.

(** [d[k] = v]: an existing key keeps its position, a new key goes last. *)
Fixpoint setitem (k : string) (v : value) (d : dict) : dict :=
  match d with
  | [] => [(k, v)]
  | (k', v') :: d' =>
      if String.eqb k' k then (k', v) :: d' else (k', v') :: setitem k v d'
  end.

(** [d.get(k)] *)
Fixpoint getitem (k : string) (d : dict) : option value :=
  match d with
  | [] => None
  | (k', v') :: d' => if String.eqb k' k then Some v' else getitem k d'
  end.

(** [dict(pairs)] *)
Definition dict_of (pairs : list (string * value)) : dict :=
  fold_left (fun d kv => setitem (fst kv) (snd kv) d) pairs [].

(** [zip(colnames, row)] stops at the shorter of the two. *)
Fixpoint zip (colnames : list string) (row : list value) : list (string * value) :=
  match colnames, row with
  | c :: cs, v :: vs => (c, v) :: zip cs vs
  | _, _ => []
  end.

(** ** The transformation of one record *)

(** The body of the inner loop:
    [if isinstance(value, (datetime, date)): record[key] = value.isoformat()]. *)
Definition convert_item (key : string) (v : value) (record : dict) : dict :=
  match v with
  | VDate d => setitem key (VStr (date_isoformat d)) record
  | VDateTime t => setitem key (VStr (datetime_isoformat t)) record
  | _ => record
  end.

(** [for key, value in record.items(): ...].  The items view is live: the
    entry at position [i] is read from the dictionary as it is when the loop
    gets there.  The loop body never changes the number of entries, so the
    loop runs [len(record)] times. *)
Fixpoint items_loop (fuel i : nat) (record : dict) : dict :=
  match fuel with
  | O => record
  | S fuel' =>
      match record !! i with
      | None => record
      | Some (key, v) => items_loop fuel' (S i) (convert_item key v record)
      end
  end.

Definition transform_record (record : dict) : dict :=
  items_loop (length record) 0 record.

(** ** The object store

    Records are mutable objects: a list of records is a list of references
    into the store, and two positions of a list may hold the same object. *)

Abbreviation ref := nat.
Abbreviation heap := (list (list (string * value))).

(** Allocation adds the object at the end of the store. *)
Definition alloc (d : dict) (h : heap) : ref * heap := (length h, h ++ [d]).

(** One iteration of [for record in records] on the object [r]. *)
Definition transform_at (r : ref) (h : heap) : heap :=
  match h !! r with
  | Some d => <[r := transform_record d]> h
  | None => h
  end.

Definition transform_heap (records : list ref) (h : heap) : heap :=
  fold_left (fun h r => transform_at r h) records h.

(** The records a list of references denotes. *)
Definition deref (h : heap) (records : list ref) : list dict :=
  omap (fun r => h !! r) records.

(** ** Exceptions and the state of a run *)

(** The classes the programs tell apart.  Every one is a subclass of
    [Exception], as the errors of both drivers are; [psycopg2.Error] is the
    only class named by a handler.  [KeyboardInterrupt] and [SystemExit],
    which are not errors of a stage, are outside the model. *)
Inductive exn_class := Psycopg2Error | PyMongoError | OtherException.

Record exn := mkExn { exn_cls : exn_class; exn_msg : string }.

(** [isinstance(e, psycopg2.Error)] *)
Definition is_psycopg2_Error (e : exn) : bool :=
  match exn_cls e with
  | Psycopg2Error => true
  | _ => false
  end.

(** [isinstance(e, Exception)] *)
Definition is_Exception (e : exn) : bool := true.

Inductive outcome (A : Type) :=
| Ok (a : A)
| Raise (e : exn).
Arguments Ok {A} a.
Arguments Raise {A} e.

Inductive level := INFO | ERROR.

(** A connection or cursor as the server sees it. *)
Inductive status := NotOpened | Open | Closed.

Inductive pg_connection := PgConnection.
Inductive pg_cursor := PgCursor.
Inductive mongo_client := MongoClientObj.

(** The result of a statement: [cursor.description] (column names) and the
    rows. *)
Definition result_set := (list string * list (list value))%type.

(** The variables that the cleanup blocks read.  [None] is Python's [None]
    in [main] and an unbound name in [scriptrans.py]. *)
Record frame := mkFrame {
  var_pg_conn : option pg_connection;
  var_pg_cursor : option pg_cursor;
  var_mongo_client : option mongo_client
}.

Record world := mkWorld {
  objects : heap;                      (* the Python object store *)
  logs : list (level * string);        (* records emitted through [logger] *)
  stdout : list string;                (* lines written by [print] *)
  pg_conn_st : status;                 (* the PostgreSQL connection *)
  pg_cursor_st : status;               (* its cursor *)
  pg_result : option result_set;       (* what the cursor holds *)
  mongo_st : status;                   (* the MongoDB client *)
  collection : list dict;              (* documents of the sink collection *)
  writes : list (list dict);           (* one entry per [insert_many] call *)
  locals : frame
}.

Definition set_objects (h : heap) (w : world) : world :=
  mkWorld h (logs w) (stdout w) (pg_conn_st w) (pg_cursor_st w) (pg_result w)
          (mongo_st w) (collection w) (writes w) (locals w).
Definition set_logs (l : list (level * string)) (w : world) : world :=
  mkWorld (objects w) l (stdout w) (pg_conn_st w) (pg_cursor_st w) (pg_result w)
          (mongo_st w) (collection w) (writes w) (locals w).
Definition set_stdout (l : list string) (w : world) : world :=
  mkWorld (objects w) (logs w) l (pg_conn_st w) (pg_cursor_st w) (pg_result w)
          (mongo_st w) (collection w) (writes w) (locals w).
Definition set_pg_conn_st (s : status) (w : world) : world :=
  mkWorld (objects w) (logs w) (stdout w) s (pg_cursor_st w) (pg_result w)
          (mongo_st w) (collection w) (writes w) (locals w).
Definition set_pg_cursor_st (s : status) (w : world) : world :=
  mkWorld (objects w) (logs w) (stdout w) (pg_conn_st w) s (pg_result w)
          (mongo_st w) (collection w) (writes w) (locals w).
Definition set_pg_result (r : option result_set) (w : world) : world :=
  mkWorld (objects w) (logs w) (stdout w) (pg_conn_st w) (pg_cursor_st w) r
          (mongo_st w) (collection w) (writes w) (locals w).
Definition set_mongo_st (s : status) (w : world) : world :=
  mkWorld (objects w) (logs w) (stdout w) (pg_conn_st w) (pg_cursor_st w) (pg_result w)
          s (collection w) (writes w) (locals w).
Definition set_sink (c : list dict) (ws : list (list dict)) (w : world) : world :=
  mkWorld (objects w) (logs w) (stdout w) (pg_conn_st w) (pg_cursor_st w) (pg_result w)
          (mongo_st w) c ws (locals w).
Definition set_locals (f : frame) (w : world) : world :=
  mkWorld (objects w) (logs w) (stdout w) (pg_conn_st w) (pg_cursor_st w) (pg_result w)
          (mongo_st w) (collection w) (writes w) f.

(** The state of a fresh process in front of a sink that already holds
    [docs]. *)
Definition initial_world (docs : list dict) : world :=
  mkWorld [] [] [] NotOpened NotOpened None NotOpened docs []
          (mkFrame None None None).

(** ** Computations that change the world and may raise *)

Definition M (A : Type) : Type := world -> outcome A * world.

Definition ret {A} (a : A) : M A := fun w => (Ok a, w).

Definition raise {A} (e : exn) : M A := fun w => (Raise e, w).

Definition bind {A B} (m : M A) (k : A -> M B) : M B :=
  fun w =>
    match m w with
    | (Ok a, w') => k a w'
    | (Raise e, w') => (Raise e, w')
    end.

Notation "x <- c1 ;; c2" := (bind c1 (fun x => c2))
  (at level 100, c1 at next level, right associativity).
Notation "c1 ;; c2" := (bind c1 (fun _ => c2))
  (at level 100, right associativity).

Definition get : M world := fun w => (Ok w, w).
Definition modify (f : world -> world) : M unit := fun w => (Ok tt, f w).

(** [try: body  except <class> as e: handler e] *)
Definition try_except {A} (body : M A) (catches : exn -> bool)
    (handler : exn -> M A) : M A :=
  fun w =>
    match body w with
    | (Ok a, w') => (Ok a, w')
    | (Raise e, w') => if catches e then handler e w' else (Raise e, w')
    end.

(** [try: body  finally: cleanup].  The cleanup runs on every path; an
    exception of the body goes on after it. *)
Definition try_finally {A} (body : M A) (cleanup : M unit) : M A :=
  fun w =>
    match body w with
    | (r, w') =>
        match cleanup w' with
        | (Ok _, w'') => (r, w'')
        | (Raise e, w'') => (Raise e, w'')
        end
    end.

(** [for x in xs: body x], collecting what the body appends. *)
Fixpoint for_each {A B} (xs : list A) (body : A -> M B) : M (list B) :=
  match xs with
  | [] => ret []
  | x :: xs' => y <- body x ;; ys <- for_each xs' body ;; ret (y :: ys)
  end.

Definition logger (lv : level) (msg : string) : M unit :=
  modify (fun w => set_logs (logs w ++ [(lv, msg)]) w).

Definition print (line : string) : M unit :=
  modify (fun w => set_stdout (stdout w ++ [line]) w).

(** A new dictionary object. *)
Definition new_dict (d : dict) : M ref :=
  fun w => let (r, h) := alloc d (objects w) in (Ok r, set_objects h w).

(** ** The relational source

    The schema is not part of the repository.  The columns the statements
    compare or add are nullable integers, the state name is nullable text,
    [created_at] is a nullable timestamp; a column that is only projected is
    kept as the Python value the driver hands over for it. *)

(** [timestamp without time zone] *)
Record timestamp := mkTimestamp {
  ts_date : date;
  ts_hour : N;
  ts_minute : N;
  ts_second : N;
  ts_microsecond : N
}.

Record reservation_rooms_row := mkReservationRoom {
  rr_id : option Z;
  rr_reservation_id : value;
  rr_room_type_id : option Z;
  rr_assigned_room_type_id : option Z;
  rr_arrival : value;
  rr_departure : value;
  rr_stay : value;
  rr_booking_date : value;
  rr_number_of_adult : option Z;
  rr_number_of_child : option Z;
  rr_inf : option Z;
  rr_card_group_id : option Z;
  rr_card_group_type : value;
  rr_market_code_id : option Z;
  rr_master_guest_id : option Z;
  rr_reservation_origin_id : option Z;
  rr_reservation_source_id : option Z;
  rr_reservation_state_id : option Z;
  rr_canceled_at : value
}.

Record room_types_row := mkRoomType { rty_id : option Z; rty_code : value }.
Record guest_cards_row := mkGuestCard { gc_id : option Z; gc_country : value }.
Record reservation_origins_row := mkOrigin { ro_id : option Z; ro_name : value }.
Record reservation_sources_row := mkSource { rs_id : option Z; rs_name : value }.
Record market_codes_row := mkMarketCode { mc_id : option Z; mc_name : value }.
Record reservation_room_nights_row := mkNight {
  rrn_reservation_room_id : option Z;
  rrn_rate_id : option Z
}.
Record rates_row := mkRate { rt_id : option Z; rt_code : value; rt_name : value }.
Record agency_cards_row := mkAgency { agency_id : option Z; agency_name : value }.
Record reservation_states_row := mkState {
  st_id : option Z;
  st_system_value : option string
}.
Record reservation_room_states_row := mkRoomState {
  rrs_reservation_room_id : option Z;
  rrs_reservation_state_id : option Z;
  rrs_created_at : option timestamp
}.

Record database := mkDatabase {
  reservation_rooms : list reservation_rooms_row;
  room_types : list room_types_row;
  guest_cards : list guest_cards_row;
  reservation_origins : list reservation_origins_row;
  reservation_sources : list reservation_sources_row;
  market_codes : list market_codes_row;
  reservation_room_nights : list reservation_room_nights_row;
  rates : list rates_row;
  agency_cards : list agency_cards_row;
  reservation_states : list reservation_states_row;
  reservation_room_states : list reservation_room_states_row;
  (* the range of the integer type of the three counts *)
  int_fits : Z -> bool
}.

(** *** SQL operators *)

(** [a = b] as a condition: true only when both sides are known and equal. *)
Definition sql_eq (a b : option Z) : bool :=
  match a, b with
  | Some x, Some y => (x =? y)%Z
  | _, _ => false
  end.

(** [a = 'literal'] as a condition. *)
Definition sql_text_eq (a : option string) (lit : string) : bool :=
  match a with
  | Some s => String.eqb s lit
  | None => false
  end.

(** [a + b]: null when an operand is null, an error when the sum leaves the
    range of the type. *)
Definition sql_add (fits : Z -> bool) (a b : option Z) : outcome (option Z) :=
  match a, b with
  | Some x, Some y =>
      if fits (x + y)%Z then Ok (Some (x + y)%Z)
      else Raise (mkExn Psycopg2Error "integer out of range")
  | _, _ => Ok None
  end.

(** The comparison of two timestamps, field by field. *)
Definition ts_key (t : timestamp) : list N :=
  [year (ts_date t); month (ts_date t); day (ts_date t);
   ts_hour t; ts_minute t; ts_second t; ts_microsecond t].

Fixpoint lex_leb (a b : list N) : bool :=
  match a, b with
  | [], _ => true
  | _ :: _, [] => false
  | x :: a', y :: b' =>
      if (x <? y)%N then true
      else if (y <? x)%N then false
      else lex_leb a' b'
  end.

Definition timestamp_leb (a b : timestamp) : bool := lex_leb (ts_key a) (ts_key b).

(** The order of [ORDER BY ... ASC]: nulls come last. *)
Definition asc_leb (a b : option timestamp) : bool :=
  match a, b with
  | _, None => true
  | None, Some _ => false
  | Some x, Some y => timestamp_leb x y
  end.

Fixpoint insert_asc (x : option timestamp) (l : list (option timestamp))
  : list (option timestamp) :=
  match l with
  | [] => [x]
  | y :: l' => if asc_leb x y then x :: y :: l' else y :: insert_asc x l'
  end.

Fixpoint order_by_asc (l : list (option timestamp)) : list (option timestamp) :=
  match l with
  | [] => []
  | x :: l' => insert_asc x (order_by_asc l')
  end.

(** [LIMIT n] *)
Definition limit {A} (n : nat) (l : list A) : list A := firstn n l.

(** A scalar subquery is null when it selects no row. *)
Definition scalar {A} (l : list (option A)) : option A :=
  match l with
  | [] => None
  | x :: _ => x
  end.

(** [l JOIN r ON on] *)
Definition inner_join {A B} (l : list A) (r : list B) (on : A -> B -> bool)
  : list (A * B) :=
  flat_map (fun a => map (pair a) (List.filter (on a) r)) l.

(** The right-hand rows a [LEFT JOIN] pairs with one left-hand row: the
    matches, or one all-null row when there is none. *)
Definition left_join {B} (on : B -> bool) (tbl : list B) : list (option B) :=
  match List.filter on tbl with
  | [] => [None]
  | ms => map Some ms
  end.

(** A column of a table that a [LEFT JOIN] may have left null. *)
Definition nullable {B} (o : option B) (col : B -> value) : value :=
  match o with
  | Some b => col b
  | None => VNone
  end.

(** *** What the driver hands to Python *)

Definition py_int (a : option Z) : value :=
  match a with
  | Some z => VInt z
  | None => VNone
  end.

Definition py_timestamp (a : option timestamp) : value :=
  match a with
  | Some t =>
      VDateTime (mkDateTime (ts_date t) (ts_hour t) (ts_minute t) (ts_second t)
                            (ts_microsecond t) None)
  | None => VNone
  end.

(** *** Rows of the FROM clause and their projection *)

Record joined := mkJoined {
  j_rr : reservation_rooms_row;
  j_rrt : option room_types_row;
  j_gc : option guest_cards_row;
  j_art : option room_types_row;
  j_ro : option reservation_origins_row;
  j_rs : option reservation_sources_row;
  j_mc : option market_codes_row;
  j_rrn : option reservation_room_nights_row;
  j_rt : option rates_row;
  j_agency : option agency_cards_row
}.

Definition column := (joined -> outcome value)%type.

Fixpoint eval_all {A B} (f : A -> outcome B) (l : list A) : outcome (list B) :=
  match l with
  | [] => Ok []
  | x :: l' =>
      match f x with
      | Raise e => Raise e
      | Ok y =>
          match eval_all f l' with
          | Raise e => Raise e
          | Ok ys => Ok (y :: ys)
          end
      end
  end.

(** The statement as a whole: a failing expression fails the statement. *)
Definition run_select (select_list : list (string * column)) (from : list joined)
  : outcome result_set :=
  match eval_all (fun j => eval_all (fun c => snd c j) select_list) from with
  | Ok rows => Ok (map fst select_list, rows)
  | Raise e => Raise e
  end.

(** [rr.number_of_adult + rr.number_of_child + rr.inf] *)
Definition occupancy (db : database) (rr : reservation_rooms_row) : outcome value :=
  match sql_add (int_fits db) (rr_number_of_adult rr) (rr_number_of_child rr) with
  | Raise e => Raise e
  | Ok s =>
      match sql_add (int_fits db) s (rr_inf rr) with
      | Raise e => Raise e
      | Ok t => Ok (py_int t)
      end
  end.

(** ** The servers a run talks to *)

Record postgres := mkPostgres {
  pg_db : database;
  connect_fault : option exn;     (* [psycopg2.connect] raises it *)
  cursor_fault : option exn;      (* [conn.cursor()] raises it *)
  execute_fault : option exn;     (* [cursor.execute] raises it *)
  fetchall_fault : option exn     (* [cursor.fetchall] raises it *)
}.

Record mongo := mkMongo {
  client_fault : option exn;      (* [MongoClient(uri)] raises it *)
  (* [insert_many]: from the collection and the batch, the inserted ids or
     an error, and the collection afterwards *)
  bulk_insert : list dict -> list dict -> outcome (list value) * list dict
}.

(** *** Driver calls *)

Definition psycopg2_connect (pg : postgres) : M pg_connection :=
  fun w =>
    match connect_fault pg with
    | Some e => (Raise e, w)
    | None => (Ok PgConnection, set_pg_conn_st Open w)
    end.

Definition conn_cursor (pg : postgres) (conn : pg_connection) : M pg_cursor :=
  fun w =>
    match cursor_fault pg with
    | Some e => (Raise e, w)
    | None => (Ok PgCursor, set_pg_cursor_st Open w)
    end.

Definition cursor_execute (pg : postgres) (cursor : pg_cursor)
    (query : database -> outcome result_set) : M unit :=
  fun w =>
    match execute_fault pg with
    | Some e => (Raise e, w)
    | None =>
        match query (pg_db pg) with
        | Ok rs => (Ok tt, set_pg_result (Some rs) w)
        | Raise e => (Raise e, w)
        end
    end.

Definition cursor_fetchall (pg : postgres) (cursor : pg_cursor) : M (list (list value)) :=
  fun w =>
    match fetchall_fault pg with
    | Some e => (Raise e, w)
    | None =>
        match pg_result w with
        | Some (_, rows) => (Ok rows, w)
        | None => (Raise (mkExn Psycopg2Error "no results to fetch"), w)
        end
    end.

(** [[desc[0] for desc in cursor.description]] *)
Definition cursor_description (cursor : pg_cursor) : M (list string) :=
  fun w =>
    match pg_result w with
    | Some (cols, _) => (Ok cols, w)
    | None => (Raise (mkExn OtherException "'NoneType' object is not iterable"), w)
    end.

(** Closing does not raise. *)
Definition cursor_close (cursor : pg_cursor) : M unit := modify (set_pg_cursor_st Closed).
Definition conn_close (conn : pg_connection) : M unit := modify (set_pg_conn_st Closed).
Definition client_close (client : mongo_client) : M unit := modify (set_mongo_st Closed).

Definition MongoClient (mg : mongo) : M mongo_client :=
  fun w =>
    match client_fault mg with
    | Some e => (Raise e, w)
    | None => (Ok MongoClientObj, set_mongo_st Open w)
    end.

(** [collection.insert_many(records).inserted_ids]: one call to the sink
    with the documents the references denote. *)
Definition insert_many (mg : mongo) (client : mongo_client) (records : list ref)
  : M (list value) :=
  fun w =>
    let docs := deref (objects w) records in
    let (r, c) := bulk_insert mg (collection w) docs in
    (r, set_sink c (writes w ++ [docs]) w).

(** Assignments to the variables of the cleanup blocks. *)
Definition assign_pg_conn (c : option pg_connection) : M unit :=
  modify (fun w => set_locals (mkFrame c (var_pg_cursor (locals w))
                                         (var_mongo_client (locals w))) w).
Definition assign_pg_cursor (c : option pg_cursor) : M unit :=
  modify (fun w => set_locals (mkFrame (var_pg_conn (locals w)) c
                                         (var_mongo_client (locals w))) w).
Definition assign_mongo_client (c : option mongo_client) : M unit :=
  modify (fun w => set_locals (mkFrame (var_pg_conn (locals w))
                                         (var_pg_cursor (locals w)) c) w).

(** The exit status of the interpreter: 0 when the script runs to its end,
    1 when an exception leaves it. *)
Definition exit_status {A} (r : outcome A) : Z :=
  match r with
  | Ok _ => 0
  | Raise _ => 1
  end.

(** ** data_migration_postgres_to_mongo.py *)

Module Migration.

(** The FROM clause: the base table and its nine left joins. *)
Definition from_clause (db : database) : list joined :=
  rr ← reservation_rooms db;
  rrt ← left_join (fun x => sql_eq (rr_room_type_id rr) (rty_id x)) (room_types db);
  gc ← left_join (fun x => sql_eq (rr_master_guest_id rr) (gc_id x)) (guest_cards db);
  art ← left_join (fun x => sql_eq (rr_assigned_room_type_id rr) (rty_id x)) (room_types db);
  ro ← left_join (fun x => sql_eq (rr_reservation_origin_id rr) (ro_id x))
                 (reservation_origins db);
  rs ← left_join (fun x => sql_eq (rr_reservation_source_id rr) (rs_id x))
                 (reservation_sources db);
  mc ← left_join (fun x => sql_eq (rr_market_code_id rr) (mc_id x)) (market_codes db);
  rrn ← left_join (fun x => sql_eq (rrn_reservation_room_id x) (rr_id rr))
                  (reservation_room_nights db);
  rt ← left_join (fun x => sql_eq (rrn ≫= rrn_rate_id) (rt_id x)) (rates db);
  agency ← left_join (fun x => sql_eq (rr_card_group_id rr) (agency_id x))
                     (agency_cards db);
  [mkJoined rr rrt gc art ro rs mc rrn rt agency].

(** The rows of the first subquery: room and state pairs of the same guest
    in a cancelled state. *)
Definition cancelled_rooms (db : database) (rr : reservation_rooms_row)
  : list (reservation_rooms_row * reservation_states_row) :=
  List.filter
    (fun p => sql_eq (rr_master_guest_id (fst p)) (rr_master_guest_id rr)
              && sql_text_eq (st_system_value (snd p)) "cancelled")
    (inner_join (reservation_rooms db) (reservation_states db)
                (fun r2 s2 => sql_eq (st_id s2) (rr_reservation_state_id r2))).

(** [(SELECT COUNT( * ) ...) AS preview_cancelled] *)
Definition preview_cancelled (db : database) (rr : reservation_rooms_row) : value :=
  VInt (Z.of_nat (length (cancelled_rooms db rr))).

(** The rows of the second subquery before ordering: the cancelled states
    recorded for this reservation-room. *)
Definition cancelled_states (db : database) (rr : reservation_rooms_row)
  : list (reservation_room_states_row * reservation_states_row) :=
  List.filter
    (fun p => sql_eq (rrs_reservation_room_id (fst p)) (rr_id rr)
              && sql_text_eq (st_system_value (snd p)) "cancelled")
    (inner_join (reservation_room_states db) (reservation_states db)
                (fun rrs st => sql_eq (st_id st) (rrs_reservation_state_id rrs))).

(** [(SELECT rrs.created_at ... ORDER BY rrs.created_at ASC LIMIT 1)
     AS cancelled_date] *)
Definition cancelled_date (db : database) (rr : reservation_rooms_row) : value :=
  py_timestamp
    (scalar (limit 1 (order_by_asc
       (map (fun p => rrs_created_at (fst p)) (cancelled_states db rr))))).

Definition select_list (db : database) : list (string * column) :=
  [ ("reservation_id", fun j => Ok (rr_reservation_id (j_rr j)));
    ("requested_room_type_id", fun j => Ok (py_int (rr_room_type_id (j_rr j))));
    ("requested_room_type_code", fun j => Ok (nullable (j_rrt j) rty_code));
    ("assigned_room_type_code", fun j => Ok (nullable (j_art j) rty_code));
    ("arrival_date", fun j => Ok (rr_arrival (j_rr j)));
    ("departure_date", fun j => Ok (rr_departure (j_rr j)));
    ("stay", fun j => Ok (rr_stay (j_rr j)));
    ("booking_date", fun j => Ok (rr_booking_date (j_rr j)));
    ("origin_city", fun j => Ok (nullable (j_gc j) gc_country));
    ("origin_reservation", fun j => Ok (nullable (j_ro j) ro_name));
    ("source_reservation", fun j => Ok (nullable (j_rs j) rs_name));
    ("occupancy", fun j => occupancy db (j_rr j));
    ("card_group_id", fun j => Ok (py_int (rr_card_group_id (j_rr j))));
    ("card_group_name", fun j => Ok (nullable (j_agency j) agency_name));
    ("card_group_type", fun j => Ok (rr_card_group_type (j_rr j)));
    ("market_code_id", fun j => Ok (py_int (rr_market_code_id (j_rr j))));
    ("market_code_name", fun j => Ok (nullable (j_mc j) mc_name));
    ("rate_code", fun j => Ok (nullable (j_rt j) rt_code));
    ("rate_name", fun j => Ok (nullable (j_rt j) rt_name));
    ("preview_cancelled", fun j => Ok (preview_cancelled db (j_rr j)));
    ("preview_no_show", fun j => Ok (VBool false));
    ("cancelled_date", fun j => Ok (cancelled_date db (j_rr j)));
    ("no_show_date", fun j => Ok VNone);
    ("preference_guest", fun j => Ok VNone);
    ("preference_reservation", fun j => Ok VNone);
    ("season", fun j => Ok VNone) ].

Definition query (db : database) : outcome result_set :=
  run_select (select_list db) (from_clause db).

Section Run.
Context (pg : postgres) (mg : mongo).

Definition get_postgres_connection : M pg_connection :=
  try_except
    (conn <- psycopg2_connect pg ;;
     logger INFO "Connexion à PostgreSQL établie avec succès." ;;
     ret conn)
    is_psycopg2_Error
    (fun e =>
       logger ERROR ("Erreur de connexion à PostgreSQL: " +:+ exn_msg e) ;;
       raise e).

Definition get_mongo_client : M mongo_client :=
  try_except
    (client <- MongoClient mg ;;
     logger INFO "Connexion à MongoDB établie avec succès." ;;
     ret client)
    is_Exception
    (fun e =>
       logger ERROR ("Erreur de connexion à MongoDB: " +:+ exn_msg e) ;;
       raise e).

Definition extract_data_from_postgres (conn : pg_connection) : M (list ref) :=
  try_except
    (data <- (cursor <- conn_cursor pg conn ;;
              try_finally
                (cursor_execute pg cursor query ;;
                 rows <- cursor_fetchall pg cursor ;;
                 colnames <- cursor_description cursor ;;
                 for_each rows (fun row => new_dict (dict_of (zip colnames row))))
                (cursor_close cursor)) ;;
     logger INFO (str_N (N.of_nat (length data))
                  +:+ " enregistrements extraits de PostgreSQL.") ;;
     ret data)
    is_psycopg2_Error
    (fun e =>
       logger ERROR ("Erreur lors de l'extraction des données: " +:+ exn_msg e) ;;
       raise e).

(** The records are changed in place and the same list is returned. *)
Definition transform_data (records : list ref) : M (list ref) :=
  modify (fun w => set_objects (transform_heap records (objects w)) w) ;;
  ret records.

(** The function has no [return] with a value: its result is [None] on both
    paths that return. *)
Definition load_data_to_mongo (client : mongo_client) (records : list ref) : M value :=
  match records with
  | [] =>
      logger INFO "Aucun document à insérer dans MongoDB." ;;
      ret VNone
  | _ :: _ =>
      try_except
        (inserted_ids <- insert_many mg client records ;;
         logger INFO (str_N (N.of_nat (length inserted_ids))
                      +:+ " documents insérés dans MongoDB.") ;;
         ret VNone)
        is_Exception
        (fun e =>
           logger ERROR ("Erreur lors de l'insertion dans MongoDB: " +:+ exn_msg e) ;;
           raise e)
  end.

Definition main_body : M unit :=
  pg_conn <- get_postgres_connection ;;
  assign_pg_conn (Some pg_conn) ;;
  data <- extract_data_from_postgres pg_conn ;;
  data <- transform_data data ;;
  client <- get_mongo_client ;;
  assign_mongo_client (Some client) ;;
  load_data_to_mongo client data ;;
  ret tt.

Definition main_cleanup : M unit :=
  w <- get ;;
  match var_pg_conn (locals w) with
  | Some conn => conn_close conn ;; logger INFO "Connexion à PostgreSQL fermée."
  | None => ret tt
  end ;;
  w <- get ;;
  match var_mongo_client (locals w) with
  | Some client => client_close client ;; logger INFO "Connexion à MongoDB fermée."
  | None => ret tt
  end.

Definition main : M unit :=
  assign_pg_conn None ;;
  assign_mongo_client None ;;
  try_finally
    (try_except main_body is_Exception
       (fun e => logger ERROR ("Erreur dans le script principal: " +:+ exn_msg e)))
    main_cleanup.

(** [if __name__ == "__main__": main()] in a fresh process. *)
Definition run (docs : list dict) : outcome unit * world := main (initial_world docs).

End Run.
End Migration.

(** ** scriptrans.py *)

Module Scriptrans.

(** The documented target fields (kept by the script for reference). *)
Definition target_fields : list string :=
  [ "reservation_id"; "requested_room_type_id"; "requested_room_type_code";
    "assigned_room_type_code";
    "arrival_date"; "departure_date"; "stay"; "booking_date";
    "origin_city"; "origin_reservation"; "source_reservation";
    "occupancy"; "card_group_id"; "card_group_name"; "card_group_type";
    "market_code_id"; "market_code_name";
    "rate_code"; "rate_name";
    "preview_cancelled"; "preview_no_show";
    "cancelled_date"; "no_show_date";
    "preference_guest"; "preference_reservation"; "season" ].

(** The FROM clause: the base table and its seven left joins (no guest card,
    no agency card). *)
Definition from_clause (db : database) : list joined :=
  rr ← reservation_rooms db;
  rrt ← left_join (fun x => sql_eq (rr_room_type_id rr) (rty_id x)) (room_types db);
  art ← left_join (fun x => sql_eq (rr_assigned_room_type_id rr) (rty_id x)) (room_types db);
  ro ← left_join (fun x => sql_eq (rr_reservation_origin_id rr) (ro_id x))
                 (reservation_origins db);
  rs ← left_join (fun x => sql_eq (rr_reservation_source_id rr) (rs_id x))
                 (reservation_sources db);
  mc ← left_join (fun x => sql_eq (rr_market_code_id rr) (mc_id x)) (market_codes db);
  rrn ← left_join (fun x => sql_eq (rrn_reservation_room_id x) (rr_id rr))
                  (reservation_room_nights db);
  rt ← left_join (fun x => sql_eq (rrn ≫= rrn_rate_id) (rt_id x)) (rates db);
  [mkJoined rr rrt None art ro rs mc rrn rt None].

Definition select_list (db : database) : list (string * column) :=
  [ ("reservation_id", fun j => Ok (rr_reservation_id (j_rr j)));
    ("requested_room_type_id", fun j => Ok (py_int (rr_room_type_id (j_rr j))));
    ("requested_room_type_code", fun j => Ok (nullable (j_rrt j) rty_code));
    ("assigned_room_type_code", fun j => Ok (nullable (j_art j) rty_code));
    ("arrival_date", fun j => Ok (rr_arrival (j_rr j)));
    ("departure_date", fun j => Ok (rr_departure (j_rr j)));
    ("stay", fun j => Ok (rr_stay (j_rr j)));
    ("booking_date", fun j => Ok (rr_booking_date (j_rr j)));
    ("origin_city", fun j => Ok (VStr ""));
    ("origin_reservation", fun j => Ok (nullable (j_ro j) ro_name));
    ("source_reservation", fun j => Ok (nullable (j_rs j) rs_name));
    ("occupancy", fun j => occupancy db (j_rr j));
    ("card_group_id", fun j => Ok (py_int (rr_card_group_id (j_rr j))));
    ("card_group_name", fun j => Ok (VStr ""));
    ("card_group_type", fun j => Ok (rr_card_group_type (j_rr j)));
    ("market_code_id", fun j => Ok (py_int (rr_market_code_id (j_rr j))));
    ("market_code_name", fun j => Ok (nullable (j_mc j) mc_name));
    ("rate_code", fun j => Ok (nullable (j_rt j) rt_code));
    ("rate_name", fun j => Ok (nullable (j_rt j) rt_name));
    ("preview_cancelled", fun j => Ok (VBool false));
    ("preview_no_show", fun j => Ok (VBool false));
    ("cancelled_date", fun j => Ok (rr_canceled_at (j_rr j)));
    ("no_show_date", fun j => Ok VNone);
    ("preference_guest", fun j => Ok VNone);
    ("preference_reservation", fun j => Ok VNone);
    ("season", fun j => Ok VNone) ].

Definition query (db : database) : outcome result_set :=
  run_select (select_list db) (from_clause db).

Section Run.
Context (pg : postgres) (mg : mongo).

(** The body of the loop over the rows: build the document, convert its
    dates in place, append it. *)
Definition make_document (colnames : list string) (row : list value) : M ref :=
  doc <- new_dict (dict_of (zip colnames row)) ;;
  modify (fun w => set_objects (transform_at doc (objects w)) w) ;;
  ret doc.

Definition script_body : M unit :=
  pg_conn <- psycopg2_connect pg ;;
  assign_pg_conn (Some pg_conn) ;;
  pg_cursor <- conn_cursor pg pg_conn ;;
  assign_pg_cursor (Some pg_cursor) ;;
  client <- MongoClient mg ;;
  assign_mongo_client (Some client) ;;
  cursor_execute pg pg_cursor query ;;
  rows <- cursor_fetchall pg pg_cursor ;;
  colnames <- cursor_description pg_cursor ;;
  documents <- for_each rows (make_document colnames) ;;
  match documents with
  | [] => ret tt
  | _ :: _ =>
      insert_many mg client documents ;;
      print ("Inserted " +:+ str_N (N.of_nat (length documents))
             +:+ " documents into MongoDB.")
  end.

(** [if 'name' in locals(): name.close()], three times. *)
Definition script_cleanup : M unit :=
  w <- get ;;
  match var_pg_cursor (locals w) with
  | Some cursor => cursor_close cursor
  | None => ret tt
  end ;;
  w <- get ;;
  match var_pg_conn (locals w) with
  | Some conn => conn_close conn
  | None => ret tt
  end ;;
  w <- get ;;
  match var_mongo_client (locals w) with
  | Some client => client_close client
  | None => ret tt
  end.

Definition script : M unit :=
  try_finally
    (try_except script_body is_Exception
       (fun e => print ("Error occurred: " +:+ exn_msg e)))
    script_cleanup.

Definition run (docs : list dict) : outcome unit * world := script (initial_world docs).

End Run.
End Scriptrans.

(** ** Vocabulary of the statements

    The definitions below say, in the words of the specification, what the
    theorems relate the programs to. *)

(** *** The normalisation rule *)

(** What the transformation does to one value, in the words of the rule. *)
Definition iso_value (v : value) : value :=
  match v with
  | VDate d => VStr (date_isoformat d)
  | VDateTime t => VStr (datetime_isoformat t)
  | _ => v
  end.

Definition iso_entry (kv : string * value) : string * value := (fst kv, iso_value (snd kv)).

(** Text, number, boolean or null. *)
Definition storable (v : value) : bool :=
  match v with
  | VNone | VBool _ | VInt _ | VFloat _ | VStr _ => true
  | _ => false
  end.

(** Text, number, boolean, null, date or date-time. *)
Definition well_typed (v : value) : bool := storable v || isinstance_date v.

Definition no_date (d : dict) : Prop :=
  Forall (fun kv => isinstance_date (snd kv) = false) d.
Definition all_storable (d : dict) : Prop :=
  Forall (fun kv => storable (snd kv) = true) d.
Definition all_well_typed (d : dict) : Prop :=
  Forall (fun kv => well_typed (snd kv) = true) d.

(** The ranges [datetime.date] and [datetime.datetime] enforce. *)
Definition valid_date (d : date) : Prop :=
  (1 <= year d <= 9999)%N /\ (1 <= month d <= 12)%N /\ (1 <= day d <= 31)%N.

Definition valid_time (t : datetime) : Prop :=
  (hour t < 24)%N /\ (minute t < 60)%N /\ (second t < 60)%N /\ (microsecond t < 1000000)%N.

(** *** Stores and records *)

(** Every object of the store is a dictionary: no key occurs twice. *)
Definition heap_wf (h : heap) : Prop := Forall (fun d => NoDup (keys d)) h.

Definition extracted_record (cols : list string) (row : list value) : dict :=
  dict_of (zip cols row).

(** The documents a successful extraction hands to the loader. *)
Definition documents (cols : list string) (rows : list (list value)) : list dict :=
  map transform_record (map (extracted_record cols) rows).

(** The sum of the three counts as SQL computes it when it succeeds. *)
Definition counts_sum (rr : reservation_rooms_row) : value :=
  match rr_number_of_adult rr, rr_number_of_child rr, rr_inf rr with
  | Some a, Some c, Some i => VInt (a + c + i)
  | _, _, _ => VNone
  end.

(** The record built from a row of the statement of
    [data_migration_postgres_to_mongo.py]. *)
Definition migration_record (db : database) (j : joined) : dict :=
  [ ("reservation_id", rr_reservation_id (j_rr j));
    ("requested_room_type_id", py_int (rr_room_type_id (j_rr j)));
    ("requested_room_type_code", nullable (j_rrt j) rty_code);
    ("assigned_room_type_code", nullable (j_art j) rty_code);
    ("arrival_date", rr_arrival (j_rr j));
    ("departure_date", rr_departure (j_rr j));
    ("stay", rr_stay (j_rr j));
    ("booking_date", rr_booking_date (j_rr j));
    ("origin_city", nullable (j_gc j) gc_country);
    ("origin_reservation", nullable (j_ro j) ro_name);
    ("source_reservation", nullable (j_rs j) rs_name);
    ("occupancy", counts_sum (j_rr j));
    ("card_group_id", py_int (rr_card_group_id (j_rr j)));
    ("card_group_name", nullable (j_agency j) agency_name);
    ("card_group_type", rr_card_group_type (j_rr j));
    ("market_code_id", py_int (rr_market_code_id (j_rr j)));
    ("market_code_name", nullable (j_mc j) mc_name);
    ("rate_code", nullable (j_rt j) rt_code);
    ("rate_name", nullable (j_rt j) rt_name);
    ("preview_cancelled", Migration.preview_cancelled db (j_rr j));
    ("preview_no_show", VBool false);
    ("cancelled_date", Migration.cancelled_date db (j_rr j));
    ("no_show_date", VNone);
    ("preference_guest", VNone);
    ("preference_reservation", VNone);
    ("season", VNone) ].

(** The record built from a row of the statement of [scriptrans.py]. *)
Definition scriptrans_record (j : joined) : dict :=
  [ ("reservation_id", rr_reservation_id (j_rr j));
    ("requested_room_type_id", py_int (rr_room_type_id (j_rr j)));
    ("requested_room_type_code", nullable (j_rrt j) rty_code);
    ("assigned_room_type_code", nullable (j_art j) rty_code);
    ("arrival_date", rr_arrival (j_rr j));
    ("departure_date", rr_departure (j_rr j));
    ("stay", rr_stay (j_rr j));
    ("booking_date", rr_booking_date (j_rr j));
    ("origin_city", VStr "");
    ("origin_reservation", nullable (j_ro j) ro_name);
    ("source_reservation", nullable (j_rs j) rs_name);
    ("occupancy", counts_sum (j_rr j));
    ("card_group_id", py_int (rr_card_group_id (j_rr j)));
    ("card_group_name", VStr "");
    ("card_group_type", rr_card_group_type (j_rr j));
    ("market_code_id", py_int (rr_market_code_id (j_rr j)));
    ("market_code_name", nullable (j_mc j) mc_name);
    ("rate_code", nullable (j_rt j) rt_code);
    ("rate_name", nullable (j_rt j) rt_name);
    ("preview_cancelled", VBool false);
    ("preview_no_show", VBool false);
    ("cancelled_date", rr_canceled_at (j_rr j));
    ("no_show_date", VNone);
    ("preference_guest", VNone);
    ("preference_reservation", VNone);
    ("season", VNone) ].

(** The four fields that no source column feeds. *)
Definition reserved_null (d : dict) : Prop :=
  getitem "no_show_date" d = Some VNone /\
  getitem "preference_guest" d = Some VNone /\
  getitem "preference_reservation" d = Some VNone /\
  getitem "season" d = Some VNone.

Definition fixed_shape (d : dict) : Prop :=
  keys d = Scriptrans.target_fields /\ reserved_null d.

(** *** Failures and what the run reports *)

(** The first error of the statement once the cursor is open: executing it (a
    fault of the server or an error of the statement itself), then fetching
    the rows. *)
Definition statement_error (query : database -> outcome result_set) (pg : postgres)
  : option exn :=
  match execute_fault pg with
  | Some e => Some e
  | None =>
      match query (pg_db pg) with
      | Raise e => Some e
      | Ok _ => fetchall_fault pg
      end
  end.

(** The first error of the extraction of [main], in the order the calls are
    made: opening the cursor, then the statement. *)
Definition extraction_error (query : database -> outcome result_set) (pg : postgres)
  : option exn :=
  match cursor_fault pg with
  | Some e => Some e
  | None => statement_error query pg
  end.

Definition extract_error_log (e : exn) : list (level * string) :=
  if is_psycopg2_Error e
  then [(ERROR, "Erreur lors de l'extraction des données: " +:+ exn_msg e)]
  else [].

Definition connect_error_log (e : exn) : list (level * string) :=
  if is_psycopg2_Error e
  then [(ERROR, "Erreur de connexion à PostgreSQL: " +:+ exn_msg e)]
  else [].

Definition main_error_log (e : exn) : level * string :=
  (ERROR, "Erreur dans le script principal: " +:+ exn_msg e).

Definition extracted_log (rows : list (list value)) : list (level * string) :=
  [(INFO, "Connexion à PostgreSQL établie avec succès.");
   (INFO, str_N (N.of_nat (length rows)) +:+ " enregistrements extraits de PostgreSQL.")].

Definition closed_log : list (level * string) :=
  [(INFO, "Connexion à PostgreSQL fermée."); (INFO, "Connexion à MongoDB fermée.")].

Definition error_line (e : exn) : string := "Error occurred: " +:+ exn_msg e.

(** *** The cancellation history *)

(** The state [sid] refers to is a cancelled state. *)
Definition is_cancelled_state (db : database) (sid : option Z) : bool :=
  existsb (fun s => sql_eq (st_id s) sid && sql_text_eq (st_system_value s) "cancelled")
          (reservation_states db).








(** ** Sample data *)

Definition no_fault (db : database) : postgres := mkPostgres db None None None None.

(** A sink that takes every document and numbers the new ones. *)
Definition accepting_sink : mongo :=
  mkMongo None
    (fun coll docs =>
       (Ok (map (fun i => VInt (Z.of_nat i)) (seq (length coll) (length docs))),
        coll ++ docs)).

(** A sink whose bulk insert is refused as a whole. *)
Definition rejecting_sink : mongo :=
  mkMongo None (fun coll docs => (Raise (mkExn PyMongoError "batch op errors occurred"), coll)).

Definition int4_fits (z : Z) : bool := ((-2147483648 <=? z) && (z <=? 2147483647))%Z.

Definition sample_room : reservation_rooms_row :=
  mkReservationRoom (Some 1%Z) (VInt 7001) (Some 10%Z) None
    (VDate (mkDate 2024 3 1)) (VDate (mkDate 2024 3 5)) (VInt 4)
    (VDateTime (mkDateTime (mkDate 2024 1 15) 10 30 0 0 None))
    (Some 2%Z) (Some 1%Z) (Some 0%Z)
    None (VStr "AGENCY") (Some 3%Z) (Some 55%Z) None None (Some 2%Z) VNone.

Definition other_room : reservation_rooms_row :=
  mkReservationRoom (Some 2%Z) (VInt 7002) None None
    (VDate (mkDate 2023 12 24)) (VDate (mkDate 2023 12 26)) (VInt 2) VNone
    (Some 1%Z) None (Some 0%Z)
    None VNone None (Some 55%Z) None None (Some 2%Z) VNone.

Definition sample_db : database :=
  mkDatabase
    [sample_room; other_room]
    [mkRoomType (Some 10%Z) (VStr "DBL")]
    [mkGuestCard (Some 55%Z) (VStr "TN")]
    [] []
    [mkMarketCode (Some 3%Z) (VStr "LEISURE")]
    [mkNight (Some 1%Z) (Some 100%Z)]
    [mkRate (Some 100%Z) (VStr "BB") (VStr "Bed and breakfast")]
    []
    [mkState (Some 1%Z) (Some "confirmed"); mkState (Some 2%Z) (Some "cancelled")]
    [mkRoomState (Some 1%Z) (Some 2%Z)
       (Some (mkTimestamp (mkDate 2024 2 20) 8 0 0 0));
     mkRoomState (Some 1%Z) (Some 2%Z)
       (Some (mkTimestamp (mkDate 2024 2 10) 17 45 12 250000));
     mkRoomState (Some 1%Z) (Some 1%Z)
       (Some (mkTimestamp (mkDate 2024 1 15) 10 30 0 0));
     mkRoomState (Some 1%Z) (Some 2%Z) None]
    int4_fits.

(** The row of the example scenario: arrival 2024-03-01, departure
    2024-03-05, two adults, one child, no infant. *)
Definition scenario_db : database :=
  mkDatabase [sample_room] [] [] [] [] [] [] [] [] [] [] int4_fits.

Definition dated_record : dict :=
  [("arrival_date", VDate (mkDate 2024 3 1));
   ("booking_date", VDateTime (mkDateTime (mkDate 2024 1 15) 10 30 0 0 None));
   ("stay", VInt 4); ("season", VNone)].

Definition dated_world : world :=
  mkWorld [dated_record; dated_record] [] [] NotOpened NotOpened None NotOpened [] []
          (mkFrame None None None).

Definition unreachable_source : postgres :=
  mkPostgres sample_db (Some (mkExn Psycopg2Error "connection refused")) None None None.

(** A source whose statement fails: the sum of the counts leaves the range
    of the integer type. *)
Definition overflowing_db : database :=
  mkDatabase
    [mkReservationRoom (Some 1%Z) (VInt 7001) None None VNone VNone VNone VNone
       (Some 2147483647%Z) (Some 1%Z) (Some 0%Z)
       None VNone None None None None None VNone]
    [] [] [] [] [] [] [] [] [] [] int4_fits.


Definition one_record_world : world :=
  mkWorld [[("stay", VInt 4)]] [] [] Closed Closed None Open [] []
          (mkFrame (Some PgConnection) None (Some MongoClientObj)).

(** ** Settings

    The arguments the two scripts hand to the drivers. *)

(** [os.getenv(key, default)], on the environment as [load_dotenv()] left
    it: the text of the variable, or the default as it is written. *)
Definition getenv (environ : gmap string string) (key : string) (default : value) : value :=
  match environ !! key with
  | Some s => VStr s
  | None => default
  end.

(** The keyword arguments of [psycopg2.connect]. *)
Record connect_args := mkConnectArgs {
  arg_host : value;
  arg_database : value;
  arg_user : value;
  arg_password : value;
  arg_port : value
}.

(** The sink a script writes to: URI, database name, collection name. *)
Record sink_target := mkSinkTarget {
  target_uri : value;
  target_db : value;
  target_collection : value
}.

Module MigrationSettings.

(** The arguments of [psycopg2.connect] in [get_postgres_connection]. *)
Definition postgres_args (environ : gmap string string) : connect_args :=
  mkConnectArgs
    (getenv environ "POSTGRES_HOST" (VStr "localhost"))
    (getenv environ "POSTGRES_DB" (VStr "pfe"))
    (getenv environ "POSTGRES_USER" (VStr "postgres"))
    (getenv environ "POSTGRES_PASSWORD" (VStr "123123"))
    (getenv environ "POSTGRES_PORT" (VInt 5432)).

(** [mongo_uri] of [get_mongo_client], [db_name] and [collection_name] of
    [load_data_to_mongo]. *)
Definition mongo_target (environ : gmap string string) : sink_target :=
  mkSinkTarget
    (getenv environ "MONGO_URI" (VStr "mongodb://localhost:27017/"))
    (getenv environ "MONGO_DBNAME" (VStr "pfetest"))
    (getenv environ "MONGO_COLLECTION" (VStr "reservation_rooms_data1")).

(** The variables the script reads. *)
Definition variables : list string :=
  [ "POSTGRES_HOST"; "POSTGRES_DB"; "POSTGRES_USER"; "POSTGRES_PASSWORD";
    "POSTGRES_PORT"; "MONGO_URI"; "MONGO_DBNAME"; "MONGO_COLLECTION" ].

End MigrationSettings.

Module ScriptransSettings.

Definition pg_config : connect_args :=
  mkConnectArgs (VStr "localhost") (VStr "pfe") (VStr "postgres") (VStr "123123")
                (VInt 5432).

Definition mongo_target : sink_target :=
  mkSinkTarget (VStr "mongodb://localhost:27017/") (VStr "pfetest")
               (VStr "reservation_rooms_data1").

End ScriptransSettings.

(** ** Further vocabulary *)

(** The error that ends the body of [main], if any: the first failure among
    the connection, the extraction, the creation of the client and the bulk
    insert (which is only attempted on a non-empty batch). *)
Definition run_error (pg : postgres) (mg : mongo) (docs : list dict) : option exn :=
  match connect_fault pg with
  | Some e => Some e
  | None =>
      match extraction_error Migration.query pg with
      | Some e => Some e
      | None =>
          match client_fault mg with
          | Some e => Some e
          | None =>
              match Migration.query (pg_db pg) with
              | Raise e => Some e
              | Ok (cols, rows) =>
                  match rows with
                  | [] => None
                  | _ :: _ =>
                      match fst (bulk_insert mg docs (documents cols rows)) with
                      | Raise e => Some e
                      | Ok _ => None
                      end
                  end
              end
          end
      end
  end.

(** A sink that takes every batch it is given and adds it at the end of the
    collection. *)
Definition sink_appends (mg : mongo) : Prop :=
  forall coll batch, exists ids, bulk_insert mg coll batch = (Ok ids, coll ++ batch).

(** A server that raises nowhere. *)
Definition faultless (pg : postgres) : Prop :=
  connect_fault pg = None /\ cursor_fault pg = None /\
  execute_fault pg = None /\ fetchall_fault pg = None.

(** The order of two dates. *)
Definition date_compare (d1 d2 : date) : comparison :=
  match (year d1 ?= year d2)%N with
  | Eq =>
      match (month d1 ?= month d2)%N with
      | Eq => (day d1 ?= day d2)%N
      | c => c
      end
  | c => c
  end.

(** A sink that acknowledges one document less than it was sent. *)
Definition short_sink : mongo :=
  mkMongo None
    (fun coll docs =>
       (Ok (map (fun i => VInt (Z.of_nat i)) (seq (length coll) (length docs - 1))),
        coll ++ docs)).

(** An environment that moves the source to another port. *)
Definition other_port : gmap string string := {[ "POSTGRES_PORT" := "5433" ]}.





(** A sink whose client cannot be created. *)
Definition no_sink : mongo :=
  mkMongo (Some (mkExn PyMongoError "invalid URI")) (fun coll _ => (Ok [], coll)).


(** * Proofs *)

(** ** Dictionaries *)

Lemma map_fmap {A B} (f : A -> B) (l : list A) : map f l = f <$> l.
Proof. reflexivity. Qed.

Lemma keys_setitem_in k v d : k ∈ keys d -> keys (setitem k v d) = keys d.
Proof.
  induction d as [|[k' v'] d IH]; simpl; intros Hin.
  - by apply elem_of_nil in Hin.
  - destruct (String.eqb k' k) eqn:E; simpl; [done|].
    f_equal. apply IH. apply elem_of_cons in Hin as [->|Hin]; [|done].
    by rewrite String.eqb_refl in E.
Qed.

Lemma setitem_at_index d i k v0 v :
  NoDup (keys d) -> d !! i = Some (k, v0) -> setitem k v d = <[i := (k, v)]> d.
Proof.
  revert i. induction d as [|[k' v'] d IH]; intros i Hnd Hi; [done|].
  simpl in Hnd. apply NoDup_cons in Hnd as [Hk' Hnd].
  destruct i as [|i]; simpl in *.
  - inversion Hi; subst. by rewrite String.eqb_refl.
  - destruct (String.eqb k' k) eqn:E.
    + apply String.eqb_eq in E as ->. exfalso. apply Hk'.
      unfold keys. rewrite map_fmap. apply list_elem_of_fmap. exists (k, v0). split; [done|].
      by apply list_elem_of_lookup_2 in Hi.
    + f_equal. by apply IH.
Qed.

Lemma convert_item_at_index d i k v :
  NoDup (keys d) -> d !! i = Some (k, v) -> convert_item k v d = <[i := iso_entry (k, v)]> d.
Proof.
  intros Hnd Hi. unfold convert_item, iso_entry; simpl.
  destruct v; simpl; try (symmetry; by apply list_insert_id);
    by eapply setitem_at_index.
Qed.

Lemma keys_insert_entry (d : dict) i k v0 v :
  d !! i = Some (k, v0) -> keys (<[i := (k, v)]> d) = keys d.
Proof.
  intros Hi. unfold keys. rewrite !map_fmap. rewrite list_fmap_insert. simpl.
  apply list_insert_id. by rewrite list_lookup_fmap, Hi.
Qed.

Lemma items_loop_spec fuel : forall i d,
  NoDup (keys d) -> length d <= fuel + i ->
  items_loop fuel i d = take i d ++ map iso_entry (drop i d).
Proof.
  induction fuel as [|fuel IH]; intros i d Hnd Hlen; simpl.
  - rewrite drop_ge by lia. rewrite take_ge by lia. by rewrite app_nil_r.
  - destruct (d !! i) as [[k v]|] eqn:Hi.
    + rewrite (convert_item_at_index d i k v Hnd Hi).
      unfold iso_entry at 1; simpl.
      assert (Hlt : i < length d) by (by apply lookup_lt_Some in Hi).
      rewrite IH.
      * rewrite take_S_r with (x := (k, iso_value v)).
        2:{ by rewrite list_lookup_insert_eq. }
        rewrite take_insert_ge by lia. rewrite drop_insert_lt by lia.
        rewrite (drop_S d (k, v) i Hi). simpl.
        by rewrite <- app_assoc.
      * by rewrite (keys_insert_entry d i k v).
      * rewrite length_insert. lia.
    + apply lookup_ge_None in Hi.
      rewrite drop_ge by lia. rewrite take_ge by lia. by rewrite app_nil_r.
Qed.

Lemma transform_record_spec d :
  NoDup (keys d) -> transform_record d = map iso_entry d.
Proof.
  intros Hnd. unfold transform_record.
  rewrite items_loop_spec by (done || lia). by rewrite take_0, drop_0.
Qed.

Lemma keys_convert_item d i k v :
  d !! i = Some (k, v) -> keys (convert_item k v d) = keys d.
Proof.
  intros Hi.
  assert (Hin : k ∈ keys d).
  { unfold keys. rewrite map_fmap. apply list_elem_of_fmap. exists (k, v).
    split; [done|]. by apply list_elem_of_lookup_2 in Hi. }
  destruct v; simpl; auto using keys_setitem_in.
Qed.

Lemma keys_items_loop fuel : forall i d, keys (items_loop fuel i d) = keys d.
Proof.
  induction fuel as [|fuel IH]; intros i d; simpl; [done|].
  destruct (d !! i) as [[k v]|] eqn:Hi; [|done].
  rewrite IH. by apply keys_convert_item with (i := i).
Qed.

Lemma keys_transform_record d : keys (transform_record d) = keys d.
Proof. apply keys_items_loop. Qed.

Lemma iso_value_idem v : iso_value (iso_value v) = iso_value v.
Proof. by destruct v. Qed.

Lemma iso_entry_idem (d : dict) : map iso_entry (map iso_entry d) = map iso_entry d.
Proof.
  rewrite map_map. apply map_ext. intros [k v]. unfold iso_entry; simpl.
  by rewrite iso_value_idem.
Qed.

Lemma keys_iso_entry (d : dict) : keys (map iso_entry d) = keys d.
Proof. unfold keys. rewrite map_map. by apply map_ext. Qed.

Lemma heap_wf_lookup (h : heap) r d : heap_wf h -> h !! r = Some d -> NoDup (keys d).
Proof. intros Hwf Hr. by apply (Forall_lookup_1 _ _ _ _ Hwf Hr). Qed.

Lemma transform_at_lookup (h : heap) r r' :
  transform_at r h !! r' =
  if decide (r = r') then transform_record <$> h !! r' else h !! r'.
Proof.
  unfold transform_at. destruct (decide (r = r')) as [->|Hne].
  - destruct (h !! r') as [d|] eqn:Hr; [|by rewrite Hr].
    rewrite list_lookup_insert_eq; [done|]. by apply lookup_lt_Some in Hr.
  - destruct (h !! r) as [d|]; [|done]. by rewrite list_lookup_insert_ne.
Qed.

Lemma transform_at_length (h : heap) r : length (transform_at r h) = length h.
Proof. unfold transform_at. destruct (h !! r); [|done]. by rewrite length_insert. Qed.

Lemma transform_at_wf (h : heap) r : heap_wf h -> heap_wf (transform_at r h).
Proof.
  intros Hwf. apply Forall_lookup_2. intros i d. rewrite transform_at_lookup.
  destruct (decide (r = i)) as [->|_].
  - destruct (h !! i) as [d0|] eqn:Hi; simpl; [|done].
    intros [= <-]. rewrite keys_transform_record. by eapply heap_wf_lookup.
  - intros Hi. by eapply heap_wf_lookup.
Qed.

Lemma transform_heap_length records : forall h : heap,
  length (transform_heap records h) = length h.
Proof.
  induction records as [|r rs IH]; intros h; simpl; [done|].
  unfold transform_heap in *. simpl. by rewrite IH, transform_at_length.
Qed.

Lemma transform_heap_wf records : forall h : heap,
  heap_wf h -> heap_wf (transform_heap records h).
Proof.
  induction records as [|r rs IH]; intros h Hwf; [done|].
  unfold transform_heap in *. simpl. apply IH. by apply transform_at_wf.
Qed.

(** Where the list of records points, the object is converted (once, however
    often the list names it); every other object is left alone. *)
Lemma transform_heap_lookup records : forall (h : heap) r,
  heap_wf h ->
  transform_heap records h !! r =
  if decide (r ∈ records) then map iso_entry <$> h !! r else h !! r.
Proof.
  induction records as [|r0 rs IH]; intros h r Hwf.
  - simpl. destruct (decide (r ∈ [])) as [Hin|_]; [|done].
    by apply elem_of_nil in Hin.
  - change (transform_heap (r0 :: rs) h) with (transform_heap rs (transform_at r0 h)).
    rewrite IH by (by apply transform_at_wf).
    rewrite transform_at_lookup.
    destruct (h !! r) as [d|] eqn:Hr; simpl.
    + pose proof (heap_wf_lookup h r d Hwf Hr) as Hnd.
      destruct (decide (r ∈ rs)), (decide (r0 = r)), (decide (r ∈ r0 :: rs)) as [Hin|Hnin];
        subst; simpl; try rewrite (transform_record_spec d Hnd);
        try rewrite iso_entry_idem; try done.
      * exfalso. apply Hnin. by right.
      * exfalso. apply Hnin. by right.
      * exfalso. apply Hnin. by left.
      * apply elem_of_cons in Hin as [?|?]; congruence.
    + by repeat case_decide.
Qed.

Lemma transform_heap_idem records (h : heap) :
  heap_wf h ->
  transform_heap records (transform_heap records h) = transform_heap records h.
Proof.
  intros Hwf. apply list_eq. intros r.
  rewrite transform_heap_lookup by (by apply transform_heap_wf).
  rewrite transform_heap_lookup by done.
  destruct (decide (r ∈ records)); [|done].
  destruct (h !! r); simpl; [|done]. by rewrite iso_entry_idem.
Qed.

Lemma transform_at_keys (h : heap) r : map keys (transform_at r h) = map keys h.
Proof.
  unfold transform_at. destruct (h !! r) as [d|] eqn:Hr; [|done].
  rewrite !map_fmap, list_fmap_insert. apply list_insert_id.
  by rewrite list_lookup_fmap, Hr, keys_transform_record.
Qed.

Lemma transform_heap_keys records : forall h : heap,
  map keys (transform_heap records h) = map keys h.
Proof.
  induction records as [|r rs IH]; intros h; [done|].
  change (transform_heap (r :: rs) h) with (transform_heap rs (transform_at r h)).
  by rewrite IH, transform_at_keys.
Qed.

(** ** Runs *)

Lemma set_objects_same w : set_objects (objects w) w = w.
Proof. by destruct w. Qed.

Lemma set_objects_twice h1 h2 w : set_objects h2 (set_objects h1 w) = set_objects h2 w.
Proof. done. Qed.

Lemma for_each_new_dict {A} (f : A -> dict) (rows : list A) : forall w,
  for_each rows (fun row => new_dict (f row)) w =
  (Ok (seq (length (objects w)) (length rows)),
   set_objects (objects w ++ map f rows) w).
Proof.
  induction rows as [|row rows IH]; intros w; simpl.
  - unfold ret. by rewrite app_nil_r, set_objects_same.
  - unfold bind at 1. unfold new_dict at 1. simpl.
    unfold bind at 1. rewrite IH. simpl. unfold ret.
    rewrite length_app, Nat.add_1_r. simpl. by rewrite <- app_assoc.
Qed.

Lemma extract_ok pg conn w cols rows :
  cursor_fault pg = None -> execute_fault pg = None ->
  Migration.query (pg_db pg) = Ok (cols, rows) -> fetchall_fault pg = None ->
  Migration.extract_data_from_postgres pg conn w =
  (Ok (seq (length (objects w)) (length rows)),
   set_logs (logs w ++ [(INFO, str_N (N.of_nat (length rows))
                                +:+ " enregistrements extraits de PostgreSQL.")])
     (set_pg_cursor_st Closed
        (set_objects (objects w ++ map (extracted_record cols) rows)
           (set_pg_result (Some (cols, rows)) w)))).
Proof.
  intros H1 H2 H3 H4.
  unfold Migration.extract_data_from_postgres, try_except, bind, try_finally,
    conn_cursor, cursor_execute, cursor_fetchall, cursor_description.
  rewrite H1, H2, H3. cbn. rewrite H4. cbn.
  rewrite for_each_new_dict. cbn. rewrite length_seq. reflexivity.
Qed.

Lemma extraction_error_none query pg :
  extraction_error query pg = None ->
  cursor_fault pg = None /\ execute_fault pg = None /\ fetchall_fault pg = None /\
  exists cols rows, query (pg_db pg) = Ok (cols, rows).
Proof.
  unfold extraction_error, statement_error.
  destruct (cursor_fault pg); [done|]. destruct (execute_fault pg); [done|].
  destruct (query (pg_db pg)) as [[cols rows]|]; [|done].
  intros ->. eauto 6.
Qed.

Lemma extract_fails pg conn w e :
  extraction_error Migration.query pg = Some e ->
  Migration.extract_data_from_postgres pg conn w =
  (Raise e,
   set_logs (logs w ++ extract_error_log e)
     (match cursor_fault pg with
      | Some _ => w
      | None =>
          set_pg_cursor_st Closed
            (match execute_fault pg, Migration.query (pg_db pg) with
             | None, Ok rs => set_pg_result (Some rs) w
             | _, _ => w
             end)
      end)).
Proof.
  unfold extraction_error, statement_error, extract_error_log.
  unfold Migration.extract_data_from_postgres, try_except, bind, try_finally,
    conn_cursor, cursor_execute, cursor_fetchall, cursor_description.
  destruct (cursor_fault pg) as [e1|].
  { intros [= ->]. destruct (is_psycopg2_Error e); cbn; [done|].
    destruct w; cbn. by rewrite app_nil_r. }
  destruct (execute_fault pg) as [e2|].
  { intros [= ->]. cbn. destruct (is_psycopg2_Error e); cbn; [done|].
    destruct w; cbn. by rewrite app_nil_r. }
  destruct (Migration.query (pg_db pg)) as [[cols rows]|e3].
  - intros ->. cbn. destruct (is_psycopg2_Error e); cbn; [done|].
    destruct w; cbn. by rewrite app_nil_r.
  - intros [= ->]. cbn. destruct (is_psycopg2_Error e); cbn; [done|].
    destruct w; cbn. by rewrite app_nil_r.
Qed.

Lemma keys_setitem k v d :
  keys (setitem k v d) = if decide (k ∈ keys d) then keys d else keys d ++ [k].
Proof.
  induction d as [|[k' v'] d IH]; simpl.
  - destruct (decide (k ∈ [])) as [Hin|_]; [by apply elem_of_nil in Hin|done].
  - destruct (String.eqb k' k) eqn:E; simpl.
    + apply String.eqb_eq in E as ->.
      destruct (decide (k ∈ k :: keys d)) as [_|Hn]; [done|].
      exfalso. apply Hn. by left.
    + apply String.eqb_neq in E. rewrite IH.
      destruct (decide (k ∈ keys d)) as [Hin|Hn], (decide (k ∈ k' :: keys d)) as [Hin'|Hn'];
        try done.
      * exfalso. apply Hn'. by right.
      * apply elem_of_cons in Hin' as [->|?]; done.
Qed.

Lemma setitem_wf k v d : NoDup (keys d) -> NoDup (keys (setitem k v d)).
Proof.
  intros Hnd. rewrite keys_setitem. destruct (decide (k ∈ keys d)) as [|Hn]; [done|].
  apply NoDup_app. split; [done|]. split.
  - intros x Hx Hx'. apply list_elem_of_singleton in Hx' as ->. done.
  - apply NoDup_singleton.
Qed.

Lemma dict_of_wf pairs : NoDup (keys (dict_of pairs)).
Proof.
  unfold dict_of.
  assert (H : forall d : dict, NoDup (keys d) ->
            NoDup (keys (fold_left (fun d kv => setitem (fst kv) (snd kv) d) pairs d))).
  { induction pairs as [|[k v] ps IH]; intros d Hd; simpl; [done|].
    apply IH. by apply setitem_wf. }
  apply H. constructor.
Qed.

Lemma transform_extracted cols row :
  transform_record (extracted_record cols row) = map iso_entry (extracted_record cols row).
Proof. apply transform_record_spec, dict_of_wf. Qed.

(** Freshly allocated records are all distinct objects: each is converted. *)
Lemma transform_heap_fresh (ds : list dict) : forall h : heap,
  transform_heap (seq (length h) (length ds)) (h ++ ds) = h ++ map transform_record ds.
Proof.
  induction ds as [|d ds IH]; intros h; [done|].
  simpl length. simpl seq.
  change (transform_heap (length h :: ?rs) ?x) with (transform_heap rs (transform_at (length h) x)).
  assert (Hat : transform_at (length h) (h ++ d :: ds) = (h ++ [transform_record d]) ++ ds).
  { unfold transform_at. rewrite list_lookup_middle by done.
    rewrite insert_app_r_alt by done. rewrite Nat.sub_diag. simpl.
    by rewrite <- app_assoc. }
  rewrite Hat.
  replace (S (length h)) with (length (h ++ [transform_record d]))
    by (rewrite length_app; simpl; lia).
  rewrite IH. by rewrite <- app_assoc.
Qed.

Lemma deref_fresh (ds : list dict) : forall h : heap,
  deref (h ++ ds) (seq (length h) (length ds)) = ds.
Proof.
  induction ds as [|d ds IH]; intros h; [done|].
  unfold deref in *. simpl. rewrite list_lookup_middle by done. simpl.
  f_equal. specialize (IH (h ++ [d])).
  rewrite length_app in IH. simpl in IH. rewrite Nat.add_1_r in IH.
  by rewrite <- app_assoc in IH.
Qed.

Ltac world_step :=
  cbv [set_objects set_logs set_stdout set_pg_conn_st set_pg_cursor_st set_pg_result
       set_mongo_st set_sink set_locals initial_world assign_pg_conn assign_pg_cursor
       assign_mongo_client logger print modify get ret raise conn_close client_close
       cursor_close objects logs stdout pg_conn_st pg_cursor_st pg_result mongo_st
       collection writes locals var_pg_conn var_pg_cursor var_mongo_client];
  cbn [objects logs stdout pg_conn_st pg_cursor_st pg_result mongo_st collection writes
       locals var_pg_conn var_pg_cursor var_mongo_client fst snd app length].

Ltac open_main :=
  unfold Migration.run, Migration.main, Migration.main_body, Migration.main_cleanup,
    Migration.get_postgres_connection, Migration.get_mongo_client, Migration.transform_data,
    try_finally, try_except, bind, psycopg2_connect, MongoClient;
  world_step.

Lemma run_connect_fails pg mg docs e :
  connect_fault pg = Some e ->
  Migration.run pg mg docs =
  (Ok tt,
   mkWorld [] (connect_error_log e ++ [main_error_log e]) [] NotOpened NotOpened None
           NotOpened docs [] (mkFrame None None None)).
Proof.
  intros H. unfold connect_error_log, main_error_log. open_main.
  rewrite H. destruct (is_psycopg2_Error e); reflexivity.
Qed.

Lemma run_extract_fails pg mg docs e :
  connect_fault pg = None ->
  extraction_error Migration.query pg = Some e ->
  Migration.run pg mg docs =
  (Ok tt,
   mkWorld []
     ([(INFO, "Connexion à PostgreSQL établie avec succès.")] ++ extract_error_log e ++
      [main_error_log e; (INFO, "Connexion à PostgreSQL fermée.")])
     [] Closed
     (match cursor_fault pg with Some _ => NotOpened | None => Closed end)
     (match cursor_fault pg, execute_fault pg, Migration.query (pg_db pg) with
      | None, None, Ok rs => Some rs
      | _, _, _ => None
      end)
     NotOpened docs [] (mkFrame (Some PgConnection) None None)).
Proof.
  intros H He. unfold main_error_log. open_main.
  rewrite H. world_step. rewrite (extract_fails _ _ _ e He). unfold is_Exception. world_step.
  destruct (cursor_fault pg), (execute_fault pg), (Migration.query (pg_db pg));
    world_step; rewrite <- ?app_assoc; reflexivity.
Qed.

Lemma transform_heap_all {A} (f : A -> dict) (rows : list A) :
  transform_heap (seq 0 (length rows)) (map f rows) = map transform_record (map f rows).
Proof.
  pose proof (transform_heap_fresh (map f rows) []) as H.
  by rewrite length_map in H.
Qed.

Lemma deref_all (ds : list dict) n : n = length ds -> deref ds (seq 0 n) = ds.
Proof. intros ->. apply (deref_fresh ds []). Qed.

Lemma load_empty mg client w :
  Migration.load_data_to_mongo mg client [] w =
  (Ok VNone, set_logs (logs w ++ [(INFO, "Aucun document à insérer dans MongoDB.")]) w).
Proof. reflexivity. Qed.

Lemma load_ok mg client records w ids c :
  records <> [] ->
  bulk_insert mg (collection w) (deref (objects w) records) = (Ok ids, c) ->
  Migration.load_data_to_mongo mg client records w =
  (Ok VNone,
   set_logs (logs w ++ [(INFO, str_N (N.of_nat (length ids))
                                +:+ " documents insérés dans MongoDB.")])
     (set_sink c (writes w ++ [deref (objects w) records]) w)).
Proof.
  intros Hne Hb. destruct records as [|r rs]; [done|].
  unfold Migration.load_data_to_mongo, try_except, bind, insert_many.
  rewrite Hb. reflexivity.
Qed.

Lemma load_fails mg client records w e c :
  records <> [] ->
  bulk_insert mg (collection w) (deref (objects w) records) = (Raise e, c) ->
  Migration.load_data_to_mongo mg client records w =
  (Raise e,
   set_logs (logs w ++ [(ERROR, "Erreur lors de l'insertion dans MongoDB: " +:+ exn_msg e)])
     (set_sink c (writes w ++ [deref (objects w) records]) w)).
Proof.
  intros Hne Hb. destruct records as [|r rs]; [done|].
  unfold Migration.load_data_to_mongo, try_except, bind, insert_many.
  rewrite Hb. reflexivity.
Qed.

Section MigrationPaths.
Context (pg : postgres) (mg : mongo) (docs : list dict).
Context (cols : list string) (rows : list (list value)).
Hypothesis connect_ok : connect_fault pg = None.
Hypothesis cursor_ok : cursor_fault pg = None.
Hypothesis execute_ok : execute_fault pg = None.
Hypothesis query_ok : Migration.query (pg_db pg) = Ok (cols, rows).
Hypothesis fetchall_ok : fetchall_fault pg = None.

Lemma run_client_fails e :
  client_fault mg = Some e ->
  Migration.run pg mg docs =
  (Ok tt,
   mkWorld (documents cols rows)
     (extracted_log rows ++
      [(ERROR, "Erreur de connexion à MongoDB: " +:+ exn_msg e); main_error_log e;
       (INFO, "Connexion à PostgreSQL fermée.")])
     [] Closed Closed (Some (cols, rows)) NotOpened docs []
     (mkFrame (Some PgConnection) None None)).
Proof.
  intros H. unfold main_error_log, extracted_log, closed_log. open_main.
  rewrite connect_ok. world_step.
  rewrite (extract_ok _ _ _ cols rows cursor_ok execute_ok query_ok fetchall_ok). world_step.
  rewrite H. unfold is_Exception. world_step. rewrite transform_heap_all. reflexivity.
Qed.

Lemma run_nothing_to_load :
  client_fault mg = None -> rows = [] ->
  Migration.run pg mg docs =
  (Ok tt,
   mkWorld []
     (extracted_log rows ++
      [(INFO, "Connexion à MongoDB établie avec succès.");
       (INFO, "Aucun document à insérer dans MongoDB.")] ++ closed_log)
     [] Closed Closed (Some (cols, rows)) Closed docs []
     (mkFrame (Some PgConnection) None (Some MongoClientObj))).
Proof.
  intros H Hrows. unfold main_error_log, extracted_log, closed_log. open_main.
  rewrite connect_ok. world_step.
  rewrite (extract_ok _ _ _ cols rows cursor_ok execute_ok query_ok fetchall_ok). world_step.
  rewrite H. unfold is_Exception. world_step. subst rows. reflexivity.
Qed.

Lemma run_loaded ids c :
  client_fault mg = None -> rows <> [] ->
  bulk_insert mg docs (documents cols rows) = (Ok ids, c) ->
  Migration.run pg mg docs =
  (Ok tt,
   mkWorld (documents cols rows)
     (extracted_log rows ++
      [(INFO, "Connexion à MongoDB établie avec succès.");
       (INFO, str_N (N.of_nat (length ids)) +:+ " documents insérés dans MongoDB.")]
      ++ closed_log)
     [] Closed Closed (Some (cols, rows)) Closed c [documents cols rows]
     (mkFrame (Some PgConnection) None (Some MongoClientObj))).
Proof.
  intros H Hrows Hb. unfold main_error_log, extracted_log, closed_log. open_main.
  rewrite connect_ok. world_step.
  rewrite (extract_ok _ _ _ cols rows cursor_ok execute_ok query_ok fetchall_ok). world_step.
  rewrite H. unfold is_Exception. world_step. rewrite transform_heap_all.
  assert (Hd : deref (map transform_record (map (extracted_record cols) rows))
                (seq 0 (length rows)) = documents cols rows).
  { apply deref_all. unfold documents. by rewrite !length_map. }
  rewrite (load_ok mg _ _ _ ids c); world_step; rewrite ?Hd.
  - reflexivity.
  - destruct rows; [done|]. discriminate.
  - exact Hb.
Qed.

Lemma run_load_fails e c :
  client_fault mg = None -> rows <> [] ->
  bulk_insert mg docs (documents cols rows) = (Raise e, c) ->
  Migration.run pg mg docs =
  (Ok tt,
   mkWorld (documents cols rows)
     (extracted_log rows ++
      [(INFO, "Connexion à MongoDB établie avec succès.");
       (ERROR, "Erreur lors de l'insertion dans MongoDB: " +:+ exn_msg e);
       main_error_log e] ++ closed_log)
     [] Closed Closed (Some (cols, rows)) Closed c [documents cols rows]
     (mkFrame (Some PgConnection) None (Some MongoClientObj))).
Proof.
  intros H Hrows Hb. unfold main_error_log, extracted_log, closed_log. open_main.
  rewrite connect_ok. world_step.
  rewrite (extract_ok _ _ _ cols rows cursor_ok execute_ok query_ok fetchall_ok). world_step.
  rewrite H. unfold is_Exception. world_step. rewrite transform_heap_all.
  assert (Hd : deref (map transform_record (map (extracted_record cols) rows))
                (seq 0 (length rows)) = documents cols rows).
  { apply deref_all. unfold documents. by rewrite !length_map. }
  rewrite (load_fails mg _ _ _ e c); world_step; rewrite ?Hd.
  - reflexivity.
  - destruct rows; [done|]. discriminate.
  - exact Hb.
Qed.

End MigrationPaths.

(** *** scriptrans.py *)

Lemma transform_at_fresh (h : heap) d :
  transform_at (length h) (h ++ [d]) = h ++ [transform_record d].
Proof.
  unfold transform_at. rewrite list_lookup_middle by done.
  rewrite insert_app_r_alt by done. by rewrite Nat.sub_diag.
Qed.

Lemma make_document_spec cols row w :
  Scriptrans.make_document cols row w =
  (Ok (length (objects w)),
   set_objects (objects w ++ [transform_record (extracted_record cols row)]) w).
Proof.
  unfold Scriptrans.make_document, bind, new_dict, alloc, modify, ret.
  cbn [objects set_objects]. rewrite transform_at_fresh. reflexivity.
Qed.

Lemma for_each_make_document cols rows : forall w,
  for_each rows (Scriptrans.make_document cols) w =
  (Ok (seq (length (objects w)) (length rows)),
   set_objects (objects w ++ documents cols rows) w).
Proof.
  unfold documents.
  induction rows as [|row rows IH]; intros w; simpl.
  - unfold ret. by rewrite app_nil_r, set_objects_same.
  - unfold bind at 1. rewrite make_document_spec.
    unfold bind at 1. rewrite IH. unfold ret. cbn [objects set_objects].
    rewrite length_app, Nat.add_1_r. simpl. by rewrite <- app_assoc.
Qed.

Ltac open_script :=
  unfold Scriptrans.run, Scriptrans.script, Scriptrans.script_body, Scriptrans.script_cleanup,
    try_finally, try_except, bind, psycopg2_connect, conn_cursor, MongoClient,
    cursor_execute, cursor_fetchall, cursor_description, insert_many, is_Exception;
  world_step.

Lemma script_connect_fails pg mg docs e :
  connect_fault pg = Some e ->
  Scriptrans.run pg mg docs =
  (Ok tt,
   mkWorld [] [] [error_line e] NotOpened NotOpened None NotOpened docs []
           (mkFrame None None None)).
Proof. intros H. open_script. rewrite H. reflexivity. Qed.

Lemma script_cursor_fails pg mg docs e :
  connect_fault pg = None -> cursor_fault pg = Some e ->
  Scriptrans.run pg mg docs =
  (Ok tt,
   mkWorld [] [] [error_line e] Closed NotOpened None NotOpened docs []
           (mkFrame (Some PgConnection) None None)).
Proof.
  intros H1 H2. open_script. rewrite H1. world_step. rewrite H2. reflexivity.
Qed.

Lemma script_client_fails pg mg docs e :
  connect_fault pg = None -> cursor_fault pg = None -> client_fault mg = Some e ->
  Scriptrans.run pg mg docs =
  (Ok tt,
   mkWorld [] [] [error_line e] Closed Closed None NotOpened docs []
           (mkFrame (Some PgConnection) (Some PgCursor) None)).
Proof.
  intros H1 H2 H3. open_script. rewrite H1. world_step. rewrite H2. world_step.
  rewrite H3. reflexivity.
Qed.

Lemma script_statement_fails pg mg docs e :
  connect_fault pg = None -> cursor_fault pg = None -> client_fault mg = None ->
  statement_error Scriptrans.query pg = Some e ->
  Scriptrans.run pg mg docs =
  (Ok tt,
   mkWorld [] [] [error_line e] Closed Closed
     (match execute_fault pg, Scriptrans.query (pg_db pg) with
      | None, Ok rs => Some rs
      | _, _ => None
      end)
     Closed docs []
     (mkFrame (Some PgConnection) (Some PgCursor) (Some MongoClientObj))).
Proof.
  intros H1 H2 H3 He. open_script. rewrite H1. world_step. rewrite H2. world_step.
  rewrite H3. world_step. unfold statement_error in He.
  destruct (execute_fault pg) as [e1|].
  { injection He as ->. reflexivity. }
  destruct (Scriptrans.query (pg_db pg)) as [[cols rows]|e2].
  - world_step. rewrite He. reflexivity.
  - injection He as ->. reflexivity.
Qed.

Section ScriptPaths.
Context (pg : postgres) (mg : mongo) (docs : list dict).
Context (cols : list string) (rows : list (list value)).
Hypothesis connect_ok : connect_fault pg = None.
Hypothesis cursor_ok : cursor_fault pg = None.
Hypothesis client_ok : client_fault mg = None.
Hypothesis execute_ok : execute_fault pg = None.
Hypothesis query_ok : Scriptrans.query (pg_db pg) = Ok (cols, rows).
Hypothesis fetchall_ok : fetchall_fault pg = None.

Ltac script_to_loop :=
  open_script; rewrite connect_ok; world_step; rewrite cursor_ok; world_step;
  rewrite client_ok; world_step; rewrite execute_ok, query_ok; world_step;
  rewrite fetchall_ok; world_step; rewrite for_each_make_document; world_step.

Lemma script_nothing_to_load :
  rows = [] ->
  Scriptrans.run pg mg docs =
  (Ok tt,
   mkWorld [] [] [] Closed Closed (Some (cols, rows)) Closed docs []
           (mkFrame (Some PgConnection) (Some PgCursor) (Some MongoClientObj))).
Proof. intros Hrows. script_to_loop. subst rows. reflexivity. Qed.

Lemma script_loaded ids c :
  rows <> [] ->
  bulk_insert mg docs (documents cols rows) = (Ok ids, c) ->
  Scriptrans.run pg mg docs =
  (Ok tt,
   mkWorld (documents cols rows) []
     ["Inserted " +:+ str_N (N.of_nat (length rows)) +:+ " documents into MongoDB."]
     Closed Closed (Some (cols, rows)) Closed c [documents cols rows]
     (mkFrame (Some PgConnection) (Some PgCursor) (Some MongoClientObj))).
Proof.
  intros Hrows Hb. script_to_loop.
  assert (Hd : deref (documents cols rows) (seq 0 (length rows)) = documents cols rows).
  { apply deref_all. unfold documents. by rewrite !length_map. }
  destruct rows as [|row rows']; [done|].
  cbn [length seq]. cbn [length seq] in Hd. world_step. rewrite Hd, Hb. world_step.
  rewrite length_seq. reflexivity.
Qed.

Lemma script_load_fails e c :
  rows <> [] ->
  bulk_insert mg docs (documents cols rows) = (Raise e, c) ->
  Scriptrans.run pg mg docs =
  (Ok tt,
   mkWorld (documents cols rows) [] [error_line e]
     Closed Closed (Some (cols, rows)) Closed c [documents cols rows]
     (mkFrame (Some PgConnection) (Some PgCursor) (Some MongoClientObj))).
Proof.
  intros Hrows Hb. script_to_loop.
  assert (Hd : deref (documents cols rows) (seq 0 (length rows)) = documents cols rows).
  { apply deref_all. unfold documents. by rewrite !length_map. }
  destruct rows as [|row rows']; [done|].
  cbn [length seq]. cbn [length seq] in Hd. world_step. rewrite Hd, Hb. world_step.
  reflexivity.
Qed.

End ScriptPaths.

(** ** Shape of the ISO-8601 text *)

Lemma string_length_app (s1 s2 : string) :
  String.length (s1 +:+ s2) = String.length s1 + String.length s2.
Proof. induction s1 as [|c s1 IH]; simpl; [done|]. by rewrite IH. Qed.

Lemma string_app_assoc (s1 s2 s3 : string) : (s1 +:+ s2) +:+ s3 = s1 +:+ (s2 +:+ s3).
Proof.
  induction s1 as [|c s1 IH]; [done|].
  change (String c ((s1 +:+ s2) +:+ s3) = String c (s1 +:+ (s2 +:+ s3))).
  by rewrite IH.
Qed.

Lemma digits_length k : forall n, String.length (digits k n) = k.
Proof.
  induction k as [|k IH]; intros n; simpl; [done|].
  rewrite string_length_app, IH. simpl. lia.
Qed.

Lemma ndigits_aux_bound fuel : forall n k,
  (n < 10 ^ N.of_nat (S k))%N -> ndigits_aux fuel n <= S k.
Proof.
  induction fuel as [|fuel IH]; intros n k Hn; simpl; [lia|].
  destruct (N.ltb_spec n 10); [lia|].
  destruct k as [|k].
  - change (10 ^ N.of_nat 1)%N with 10%N in Hn. lia.
  - apply le_n_S. apply IH.
    rewrite Nat2N.inj_succ, N.pow_succ_r' in Hn.
    apply N.Div0.div_lt_upper_bound. lia.
Qed.

Lemma fmt_0d_fits k n :
  (n < 10 ^ N.of_nat (S k))%N -> fmt_0d (S k) n = digits (S k) n.
Proof.
  intros Hn. unfold fmt_0d, ndigits.
  pose proof (ndigits_aux_bound (N.size_nat n) n k Hn).
  f_equal. lia.
Qed.

Example date_isoformat_ex :
  date_isoformat (mkDate 2024 3 1) = "2024-03-01" /\
  date_isoformat (mkDate 987 12 31) = "0987-12-31".
Proof. split; reflexivity. Qed.

Example datetime_isoformat_ex :
  datetime_isoformat (mkDateTime (mkDate 2024 3 1) 9 5 0 0 None) = "2024-03-01T09:05:00" /\
  datetime_isoformat (mkDateTime (mkDate 2024 3 1) 9 5 0 1500 (Some (-12600)%Z))
  = "2024-03-01T09:05:00.001500-03:30".
Proof. split; reflexivity. Qed.

Example str_N_ex : str_N 0 = "0" /\ str_N 1234567 = "1234567".
Proof. split; reflexivity. Qed.

Lemma date_isoformat_shape d :
  valid_date d ->
  date_isoformat d =
  digits 4 (year d) +:+ "-" +:+ digits 2 (month d) +:+ "-" +:+ digits 2 (day d).
Proof.
  intros (Hy & Hm & Hd). unfold date_isoformat.
  rewrite !fmt_0d_fits; [done| | |].
  - change (10 ^ N.of_nat 2)%N with 100%N. lia.
  - change (10 ^ N.of_nat 2)%N with 100%N. lia.
  - change (10 ^ N.of_nat 4)%N with 10000%N. lia.
Qed.

Lemma date_isoformat_length d : valid_date d -> String.length (date_isoformat d) = 10.
Proof.
  intros H. rewrite (date_isoformat_shape d H).
  rewrite !string_length_app, !digits_length. reflexivity.
Qed.

Lemma time_shape t :
  valid_time t ->
  exists rest,
    datetime_isoformat t =
    date_isoformat (dt_date t) +:+ "T" +:+
    (digits 2 (hour t) +:+ ":" +:+ digits 2 (minute t) +:+ ":" +:+ digits 2 (second t)
     +:+ rest).
Proof.
  intros (Hh & Hm & Hs & _). unfold datetime_isoformat, format_time.
  rewrite !(fmt_0d_fits 1) by (change (10 ^ N.of_nat 2)%N with 100%N; lia).
  eexists. rewrite !string_app_assoc. reflexivity.
Qed.

(** ** The transformation *)

Lemma iso_entry_no_date (d : dict) : no_date (map iso_entry d).
Proof.
  unfold no_date. rewrite map_fmap. apply Forall_fmap, Forall_forall.
  intros [k v] _. by destruct v.
Qed.

Lemma iso_entry_storable (d : dict) : all_well_typed d -> all_storable (map iso_entry d).
Proof.
  unfold all_well_typed, all_storable. rewrite map_fmap, Forall_fmap.
  intros H. eapply Forall_impl; [exact H|]. intros [k v]. by destruct v.
Qed.

Lemma transform_data_run records w :
  Migration.transform_data records w =
  (Ok records, set_objects (transform_heap records (objects w)) w).
Proof. reflexivity. Qed.

Lemma make_document_lookup cols row w :
  objects (snd (Scriptrans.make_document cols row w)) !! length (objects w)
  = Some (map iso_entry (extracted_record cols row)).
Proof.
  rewrite make_document_spec. cbn [snd objects set_objects].
  rewrite list_lookup_middle by done. by rewrite transform_extracted.
Qed.

(** C1.  The transformation replaces every field that holds a date or a
    date-time by its ISO-8601 text and leaves every other value as it is,
    whatever the field is called: in a store of well-formed dictionaries,
    [transform_data] returns the list it was given and every record the list
    names ends up as its image under [iso_entry]; the conversion loop of
    [scriptrans.py] does the same to each document it builds.  The records
    the extraction builds are well-formed dictionaries.  Afterwards no field
    holds a date or a date-time, and a record whose values were text,
    numbers, booleans, null, dates or date-times holds only text, numbers,
    booleans and null.  The text of a date is YYYY-MM-DD (ten characters),
    that of a date-time continues with [T] and HH:MM:SS. *)
Theorem transform_replaces_dates_by_iso_text :
  (forall (records : list ref) (w : world),
     heap_wf (objects w) ->
     fst (Migration.transform_data records w) = Ok records /\
     forall r d, r ∈ records -> objects w !! r = Some d ->
       objects (snd (Migration.transform_data records w)) !! r = Some (map iso_entry d)) /\
  (forall cols row w,
     fst (Scriptrans.make_document cols row w) = Ok (length (objects w)) /\
     objects (snd (Scriptrans.make_document cols row w)) !! length (objects w)
     = Some (map iso_entry (extracted_record cols row))) /\
  (forall cols row, NoDup (keys (extracted_record cols row))) /\
  (forall d : dict,
     no_date (map iso_entry d) /\
     (all_well_typed d -> all_storable (map iso_entry d))) /\
  (forall d : date,
     valid_date d ->
     iso_value (VDate d) =
       VStr (digits 4 (year d) +:+ "-" +:+ digits 2 (month d) +:+ "-" +:+ digits 2 (day d)) /\
     String.length (date_isoformat d) = 10) /\
  (forall t : datetime,
     valid_time t ->
     exists rest,
       iso_value (VDateTime t) =
       VStr (date_isoformat (dt_date t) +:+ "T" +:+
             (digits 2 (hour t) +:+ ":" +:+ digits 2 (minute t) +:+ ":" +:+
              digits 2 (second t) +:+ rest))) /\
  (forall v : value, isinstance_date v = false -> iso_value v = v).
Proof.
  split; [|split; [|split; [|split; [|split; [|split]]]]].
  - intros records w Hwf. split; [done|].
    intros r d Hr Hd. rewrite transform_data_run. cbn [snd objects set_objects].
    rewrite transform_heap_lookup by done.
    destruct (decide (r ∈ records)); [|done]. by rewrite Hd.
  - intros cols row w. split; [by rewrite make_document_spec|].
    apply make_document_lookup.
  - intros cols row. apply dict_of_wf.
  - intros d. split; [apply iso_entry_no_date | apply iso_entry_storable].
  - intros d Hd. split.
    + simpl. by rewrite date_isoformat_shape.
    + by apply date_isoformat_length.
  - intros t Ht. destruct (time_shape t Ht) as [rest Hrest].
    exists rest. simpl. by rewrite Hrest.
  - intros v Hv. by destruct v.
Qed.

Lemma transform_replaces_dates_by_iso_text_witness :
  heap_wf (objects dated_world) /\
  objects (snd (Migration.transform_data [0; 0] dated_world)) !! 0
  = Some [("arrival_date", VStr "2024-03-01");
          ("booking_date", VStr "2024-01-15T10:30:00");
          ("stay", VInt 4); ("season", VNone)] /\
  all_storable (map iso_entry dated_record) /\
  String.length (date_isoformat (mkDate 2024 3 1)) = 10.
Proof.
  destruct transform_replaces_dates_by_iso_text as (Ht & _ & _ & Hc & Hd & _).
  assert (Hwf : heap_wf (objects dated_world)) by (unfold heap_wf; compute_done).
  split; [exact Hwf|]. split; [|split].
  - apply (proj2 (Ht [0; 0] dated_world Hwf) 0 dated_record); [by left|reflexivity].
  - apply (proj2 (Hc dated_record)). unfold all_well_typed. compute_done.
  - apply (Hd (mkDate 2024 3 1)). unfold valid_date; simpl; lia.
Defined.

(** C4.  Transforming twice is transforming once: feeding the list that
    [transform_data] returns to [transform_data] again leaves the result and
    the whole state as the first pass left them, because after the first pass
    no field of a record holds a date. *)
Theorem transform_data_idempotent (records : list ref) (w : world) :
  heap_wf (objects w) ->
  (data <- Migration.transform_data records ;; Migration.transform_data data) w
  = Migration.transform_data records w /\
  (forall d, NoDup (keys d) ->
     no_date (transform_record d) /\
     transform_record (transform_record d) = transform_record d).
Proof.
  intros Hwf. split.
  - unfold bind. rewrite !transform_data_run. cbn [objects set_objects].
    rewrite set_objects_twice. by rewrite transform_heap_idem.
  - intros d Hd. rewrite (transform_record_spec d Hd). split.
    + apply iso_entry_no_date.
    + rewrite transform_record_spec by (by rewrite keys_iso_entry).
      apply iso_entry_idem.
Qed.

Lemma transform_data_idempotent_witness :
  (data <- Migration.transform_data [0; 0] ;; Migration.transform_data data) dated_world
  = Migration.transform_data [0; 0] dated_world.
Proof.
  apply (transform_data_idempotent [0; 0] dated_world).
  unfold heap_wf. compute_done.
Defined.

Lemma deref_keys (h h' : heap) records :
  map keys h' = map keys h -> map keys (deref h' records) = map keys (deref h records).
Proof.
  intros Hk. unfold deref. induction records as [|r rs IH]; [done|]. simpl.
  assert (Hr : keys <$> h' !! r = keys <$> h !! r).
  { rewrite <- !list_lookup_fmap. rewrite <- !map_fmap. by rewrite Hk. }
  destruct (h' !! r), (h !! r); simpl in Hr; try done.
  injection Hr as Hr. simpl. by f_equal.
Qed.

(** C10.  The transformation changes values only: [transform_data] returns
    the very list it was given (same records, same order), the store keeps
    its size, every object keeps its field names in their order, and so the
    records the list denotes are as many as before with the same field names
    position by position; nothing but the objects changes.  The conversion
    loop of [scriptrans.py] keeps the field names of the document it
    builds. *)
Theorem transform_changes_values_only :
  (forall (records : list ref) (w : world),
     let r := Migration.transform_data records w in
     fst r = Ok records /\
     length (objects (snd r)) = length (objects w) /\
     map keys (objects (snd r)) = map keys (objects w) /\
     length (deref (objects (snd r)) records) = length (deref (objects w) records) /\
     map keys (deref (objects (snd r)) records) = map keys (deref (objects w) records) /\
     snd r = set_objects (objects (snd r)) w) /\
  (forall d : dict,
     keys (transform_record d) = keys d /\ length (transform_record d) = length d) /\
  (forall cols row w,
     let r := Scriptrans.make_document cols row w in
     exists d,
       objects (snd r) = objects w ++ [d] /\ keys d = keys (dict_of (zip cols row))).
Proof.
  split; [|split].
  - intros records w. cbn zeta. rewrite transform_data_run. cbn [fst snd objects set_objects].
    pose proof (transform_heap_keys records (objects w)) as Hk.
    pose proof (deref_keys (objects w) (transform_heap records (objects w)) records Hk) as Hd.
    repeat split; try done.
    + apply transform_heap_length.
    + apply (f_equal length) in Hd. by rewrite !length_map in Hd.
  - intros d. pose proof (keys_transform_record d) as Hk. split; [done|].
    apply (f_equal length) in Hk. unfold keys in Hk. by rewrite !length_map in Hk.
  - intros cols row w. cbn zeta. rewrite make_document_spec. cbn [snd objects set_objects].
    eexists. split; [done|]. apply keys_transform_record.
Qed.

Ltac migration_cases pg mg docs :=
  let e := fresh "e" in
  let Hconn := fresh "Hconn" in
  let Hext := fresh "Hext" in
  let Hcli := fresh "Hcli" in
  let Hb := fresh "Hb" in
  let Hcur := fresh "Hcur" in
  let Hexe := fresh "Hexe" in
  let Hfetch := fresh "Hfetch" in
  let Hq := fresh "Hq" in
  let cols := fresh "cols" in
  let rows := fresh "rows" in
  let row := fresh "row" in
  let ids := fresh "ids" in
  let c := fresh "c" in
  destruct (connect_fault pg) as [e|] eqn:Hconn;
  [ rewrite (run_connect_fails pg mg docs e Hconn)
  | destruct (extraction_error Migration.query pg) as [e|] eqn:Hext;
    [ rewrite (run_extract_fails pg mg docs e Hconn Hext)
    | destruct (extraction_error_none _ _ Hext) as (Hcur & Hexe & Hfetch & cols & rows & Hq);
      destruct (client_fault mg) as [e|] eqn:Hcli;
      [ rewrite (run_client_fails pg mg docs cols rows Hconn Hcur Hexe Hq Hfetch e Hcli)
      | destruct rows as [|row rows];
        [ rewrite (run_nothing_to_load pg mg docs cols [] Hconn Hcur Hexe Hq Hfetch Hcli eq_refl)
        | destruct (bulk_insert mg docs (documents cols (row :: rows))) as [[ids|e] c] eqn:Hb;
          [ rewrite (run_loaded pg mg docs cols (row :: rows) Hconn Hcur Hexe Hq Hfetch
                       ids c Hcli ltac:(discriminate) Hb)
          | rewrite (run_load_fails pg mg docs cols (row :: rows) Hconn Hcur Hexe Hq Hfetch
                       e c Hcli ltac:(discriminate) Hb) ] ] ] ] ].

Lemma statement_error_none query pg :
  statement_error query pg = None ->
  execute_fault pg = None /\ fetchall_fault pg = None /\
  exists cols rows, query (pg_db pg) = Ok (cols, rows).
Proof.
  unfold statement_error.
  destruct (execute_fault pg); [done|].
  destruct (query (pg_db pg)) as [[cols rows]|]; [|done].
  intros ->. eauto 6.
Qed.

Ltac script_cases pg mg docs :=
  let e := fresh "e" in
  let Hconn := fresh "Hconn" in
  let Hst := fresh "Hst" in
  let Hcli := fresh "Hcli" in
  let Hb := fresh "Hb" in
  let Hcur := fresh "Hcur" in
  let Hexe := fresh "Hexe" in
  let Hfetch := fresh "Hfetch" in
  let Hq := fresh "Hq" in
  let cols := fresh "cols" in
  let rows := fresh "rows" in
  let row := fresh "row" in
  let ids := fresh "ids" in
  let c := fresh "c" in
  destruct (connect_fault pg) as [e|] eqn:Hconn;
  [ rewrite (script_connect_fails pg mg docs e Hconn)
  | destruct (cursor_fault pg) as [e|] eqn:Hcur;
    [ rewrite (script_cursor_fails pg mg docs e Hconn Hcur)
    | destruct (client_fault mg) as [e|] eqn:Hcli;
      [ rewrite (script_client_fails pg mg docs e Hconn Hcur Hcli)
      | destruct (statement_error Scriptrans.query pg) as [e|] eqn:Hst;
        [ rewrite (script_statement_fails pg mg docs e Hconn Hcur Hcli Hst)
        | destruct (statement_error_none _ _ Hst) as (Hexe & Hfetch & cols & rows & Hq);
          destruct rows as [|row rows];
          [ rewrite (script_nothing_to_load pg mg docs cols [] Hconn Hcur Hcli Hexe Hq Hfetch
                       eq_refl)
          | destruct (bulk_insert mg docs (documents cols (row :: rows)))
              as [[ids|e] c] eqn:Hb;
            [ rewrite (script_loaded pg mg docs cols (row :: rows) Hconn Hcur Hcli Hexe Hq
                         Hfetch ids c ltac:(discriminate) Hb)
            | rewrite (script_load_fails pg mg docs cols (row :: rows) Hconn Hcur Hcli Hexe
                         Hq Hfetch e c ltac:(discriminate) Hb) ] ] ] ] ] ].

(** C5.  Whatever the servers do, no run ends with a connection open.  At
    the end of [main] the PostgreSQL connection is closed if it was opened
    (the connection attempt did not fail) and was never opened otherwise, the
    cursor of the extraction likewise, and the MongoDB client is closed if
    the run got as far as opening it and was never opened otherwise.  The
    same holds at the end of [scriptrans.py] for its connection, cursor and
    client. *)
Theorem every_opened_connection_is_closed (pg : postgres) (mg : mongo) (docs : list dict) :
  let w := snd (Migration.run pg mg docs) in
  let w' := snd (Scriptrans.run pg mg docs) in
  (pg_conn_st w <> Open /\ pg_cursor_st w <> Open /\ mongo_st w <> Open) /\
  (pg_conn_st w' <> Open /\ pg_cursor_st w' <> Open /\ mongo_st w' <> Open) /\
  pg_conn_st w = match connect_fault pg with None => Closed | Some _ => NotOpened end /\
  pg_cursor_st w = match connect_fault pg, cursor_fault pg with
                   | None, None => Closed
                   | _, _ => NotOpened
                   end /\
  mongo_st w = match connect_fault pg, extraction_error Migration.query pg, client_fault mg with
               | None, None, None => Closed
               | _, _, _ => NotOpened
               end /\
  pg_conn_st w' = match connect_fault pg with None => Closed | Some _ => NotOpened end /\
  pg_cursor_st w' = match connect_fault pg, cursor_fault pg with
                    | None, None => Closed
                    | _, _ => NotOpened
                    end /\
  mongo_st w' = match connect_fault pg, cursor_fault pg, client_fault mg with
                | None, None, None => Closed
                | _, _, _ => NotOpened
                end.
Proof.
  cbn zeta.
  assert (Hm : let w := snd (Migration.run pg mg docs) in
    pg_conn_st w = match connect_fault pg with None => Closed | Some _ => NotOpened end /\
    pg_cursor_st w = match connect_fault pg, cursor_fault pg with
                     | None, None => Closed
                     | _, _ => NotOpened
                     end /\
    mongo_st w = match connect_fault pg, extraction_error Migration.query pg, client_fault mg with
                 | None, None, None => Closed
                 | _, _, _ => NotOpened
                 end).
  { cbn zeta. migration_cases pg mg docs; cbn [snd pg_conn_st pg_cursor_st mongo_st];
      rewrite ?Hcur; done. }
  assert (Hs : let w' := snd (Scriptrans.run pg mg docs) in
    pg_conn_st w' = match connect_fault pg with None => Closed | Some _ => NotOpened end /\
    pg_cursor_st w' = match connect_fault pg, cursor_fault pg with
                      | None, None => Closed
                      | _, _ => NotOpened
                      end /\
    mongo_st w' = match connect_fault pg, cursor_fault pg, client_fault mg with
                  | None, None, None => Closed
                  | _, _, _ => NotOpened
                  end).
  { cbn zeta. script_cases pg mg docs; cbn [snd pg_conn_st pg_cursor_st mongo_st]; done. }
  cbn zeta in Hm, Hs. destruct Hm as (Hm1 & Hm2 & Hm3), Hs as (Hs1 & Hs2 & Hs3).
  repeat split; try assumption.
  - rewrite Hm1. by destruct (connect_fault pg).
  - rewrite Hm2. by destruct (connect_fault pg), (cursor_fault pg).
  - rewrite Hm3.
    by destruct (connect_fault pg), (extraction_error Migration.query pg), (client_fault mg).
  - rewrite Hs1. by destruct (connect_fault pg).
  - rewrite Hs2. by destruct (connect_fault pg), (cursor_fault pg).
  - rewrite Hs3. by destruct (connect_fault pg), (cursor_fault pg), (client_fault mg).
Qed.

(** ** The top-level handler *)

Lemma main_cleanup_total w :
  exists l, Migration.main_cleanup w
            = (Ok tt, set_logs (logs w ++ l)
                        (set_mongo_st (match var_mongo_client (locals w) with
                                       | Some _ => Closed
                                       | None => mongo_st w
                                       end)
                           (set_pg_conn_st (match var_pg_conn (locals w) with
                                            | Some _ => Closed
                                            | None => pg_conn_st w
                                            end) w))).
Proof.
  unfold Migration.main_cleanup, bind. world_step.
  destruct w as [o l s pc pcu pr ms co wr [vc vcu vm]]. world_step.
  destruct vc, vm; world_step; eexists; rewrite <- ?app_assoc; try reflexivity.
  by rewrite app_nil_r.
Qed.

Lemma script_cleanup_total w :
  exists w', Scriptrans.script_cleanup w = (Ok tt, w') /\ stdout w' = stdout w.
Proof.
  unfold Scriptrans.script_cleanup, bind. world_step.
  destruct w as [o l s pc pcu pr ms co wr [vc vcu vm]]. world_step.
  destruct vc, vcu, vm; world_step; eexists; split; reflexivity.
Qed.

Lemma run_is_guarded_body pg mg docs :
  Migration.run pg mg docs =
  try_finally
    (try_except (Migration.main_body pg mg) is_Exception
       (fun e => logger ERROR ("Erreur dans le script principal: " +:+ exn_msg e)))
    Migration.main_cleanup (initial_world docs).
Proof. reflexivity. Qed.

(** C6.  The top-level run never lets an error out.  Whatever the servers
    do, [main] returns normally and the interpreter's exit status is 0; when
    the body of the [try] raises an error, that error is logged by the
    handler ("Erreur dans le script principal: ...").  [scriptrans.py]
    likewise runs to its end with status 0 and prints the error it caught. *)
Theorem run_never_propagates_an_error (pg : postgres) (mg : mongo) (docs : list dict) :
  fst (Migration.run pg mg docs) = Ok tt /\
  exit_status (fst (Migration.run pg mg docs)) = 0%Z /\
  (forall e,
     fst (Migration.main_body pg mg (initial_world docs)) = Raise e ->
     (ERROR, "Erreur dans le script principal: " +:+ exn_msg e)
       ∈ logs (snd (Migration.run pg mg docs))) /\
  fst (Scriptrans.run pg mg docs) = Ok tt /\
  exit_status (fst (Scriptrans.run pg mg docs)) = 0%Z /\
  (forall e,
     fst (Scriptrans.script_body pg mg (initial_world docs)) = Raise e ->
     "Error occurred: " +:+ exn_msg e ∈ stdout (snd (Scriptrans.run pg mg docs))).
Proof.
  assert (Hm : fst (Migration.run pg mg docs) = Ok tt /\
    forall e, fst (Migration.main_body pg mg (initial_world docs)) = Raise e ->
      (ERROR, "Erreur dans le script principal: " +:+ exn_msg e)
        ∈ logs (snd (Migration.run pg mg docs))).
  { rewrite run_is_guarded_body. unfold try_finally, try_except.
    destruct (Migration.main_body pg mg (initial_world docs)) as [[[]|e] w1]; cbn [fst].
    - destruct (main_cleanup_total w1) as [l ->]. split; [done|]. discriminate.
    - unfold is_Exception, logger, modify.
      match goal with |- context [Migration.main_cleanup ?w] =>
        destruct (main_cleanup_total w) as [l ->] end.
      split; [done|]. intros e' [= <-]. cbn [snd logs set_logs set_mongo_st set_pg_conn_st].
      rewrite <- app_assoc. apply elem_of_app. right. by left. }
  assert (Hs : fst (Scriptrans.run pg mg docs) = Ok tt /\
    forall e, fst (Scriptrans.script_body pg mg (initial_world docs)) = Raise e ->
      "Error occurred: " +:+ exn_msg e ∈ stdout (snd (Scriptrans.run pg mg docs))).
  { unfold Scriptrans.run, Scriptrans.script, try_finally, try_except.
    destruct (Scriptrans.script_body pg mg (initial_world docs)) as [[[]|e] w1]; cbn [fst].
    - destruct (script_cleanup_total w1) as (w2 & -> & _). split; [done|]. discriminate.
    - unfold is_Exception, print, modify.
      match goal with |- context [Scriptrans.script_cleanup ?w] =>
        destruct (script_cleanup_total w) as (w2 & -> & Hout) end.
      split; [done|]. intros e' [= <-]. cbn [snd]. rewrite Hout. cbn [stdout set_stdout].
      apply elem_of_app. right. by left. }
  destruct Hm as [Hm1 Hm2], Hs as [Hs1 Hs2].
  rewrite Hm1, Hs1. repeat split; assumption.
Qed.

Lemma run_never_propagates_an_error_witness :
  fst (Migration.main_body unreachable_source accepting_sink (initial_world []))
  = Raise (mkExn Psycopg2Error "connection refused") /\
  (ERROR, "Erreur dans le script principal: connection refused")
    ∈ logs (snd (Migration.run unreachable_source accepting_sink [])).
Proof.
  split; [reflexivity|].
  apply (proj1 (proj2 (proj2 (run_never_propagates_an_error
                                unreachable_source accepting_sink [])))
               (mkExn Psycopg2Error "connection refused")).
  reflexivity.
Defined.

(** ** A failing extraction *)

(** C7.  A failure of the query during the extraction aborts the run.  When
    the connection is open and the extraction fails with [e] (at the cursor,
    at [execute], in the statement itself or at [fetchall]),
    [extract_data_from_postgres] raises [e] to its caller and has created no
    record; the body of [main] stops there, exactly as if it consisted of the
    connection and the extraction only, so the transformation and the load
    are not entered; the run ends normally with the error logged, no object
    in the store, no call to the sink, the sink collection as it was, the
    MongoDB client never opened and the PostgreSQL connection closed. *)
Theorem extraction_failure_aborts_run (pg : postgres) (mg : mongo) (docs : list dict)
    (e : exn) :
  connect_fault pg = None ->
  extraction_error Migration.query pg = Some e ->
  (forall conn w,
     fst (Migration.extract_data_from_postgres pg conn w) = Raise e /\
     objects (snd (Migration.extract_data_from_postgres pg conn w)) = objects w) /\
  Migration.main_body pg mg (initial_world docs)
  = (conn <- Migration.get_postgres_connection pg ;;
     assign_pg_conn (Some conn) ;;
     Migration.extract_data_from_postgres pg conn ;;
     ret tt) (initial_world docs) /\
  fst (Migration.main_body pg mg (initial_world docs)) = Raise e /\
  let w := snd (Migration.run pg mg docs) in
  fst (Migration.run pg mg docs) = Ok tt /\
  objects w = [] /\ writes w = [] /\ collection w = docs /\
  mongo_st w = NotOpened /\ pg_conn_st w = Closed /\
  logs w = [(INFO, "Connexion à PostgreSQL établie avec succès.")] ++
           extract_error_log e ++
           [(ERROR, "Erreur dans le script principal: " +:+ exn_msg e);
            (INFO, "Connexion à PostgreSQL fermée.")].
Proof.
  intros Hconn Hext.
  assert (Hbody : forall A (rest : list ref -> M A),
    (conn <- Migration.get_postgres_connection pg ;;
     assign_pg_conn (Some conn) ;;
     data <- Migration.extract_data_from_postgres pg conn ;;
     rest data) (initial_world docs)
    = (Raise e,
       snd (Migration.extract_data_from_postgres pg PgConnection
              (mkWorld [] [(INFO, "Connexion à PostgreSQL établie avec succès.")] []
                       Open NotOpened None NotOpened docs []
                       (mkFrame (Some PgConnection) None None))))).
  { intros A rest.
    unfold Migration.get_postgres_connection, try_except, bind, psycopg2_connect.
    world_step. rewrite Hconn. world_step.
    rewrite (extract_fails _ _ _ e Hext). reflexivity. }
  split; [|split; [|split]].
  - intros conn w. rewrite (extract_fails _ _ _ e Hext). split; [done|].
    cbn [snd objects set_logs].
    by destruct (cursor_fault pg), (execute_fault pg), (Migration.query (pg_db pg)).
  - unfold Migration.main_body. by rewrite !Hbody.
  - unfold Migration.main_body. by rewrite Hbody.
  - cbn zeta. rewrite (run_extract_fails pg mg docs e Hconn Hext).
    cbn [fst snd objects writes collection mongo_st pg_conn_st logs].
    repeat split.
Qed.

Lemma extraction_failure_aborts_run_witness :
  extraction_error Migration.query (no_fault overflowing_db)
  = Some (mkExn Psycopg2Error "integer out of range") /\
  writes (snd (Migration.run (no_fault overflowing_db) accepting_sink [])) = [] /\
  mongo_st (snd (Migration.run (no_fault overflowing_db) accepting_sink [])) = NotOpened.
Proof.
  assert (He : extraction_error Migration.query (no_fault overflowing_db)
               = Some (mkExn Psycopg2Error "integer out of range")) by reflexivity.
  split; [exact He|].
  pose proof (extraction_failure_aborts_run (no_fault overflowing_db) accepting_sink []
                (mkExn Psycopg2Error "integer out of range") eq_refl He)
    as (_ & _ & _ & H).
  cbn zeta in H. destruct H as (_ & _ & Hw & _ & Hm & _). by split.
Defined.

(** ** The loader *)

(** C2, as stated, fails: the loader returns [None], not a count, both on the
    empty batch and on a batch of one record that the sink accepts. *)
Lemma load_returns_no_count :
  fst (Migration.load_data_to_mongo accepting_sink MongoClientObj [] (initial_world []))
    <> Ok (VInt 0) /\
  fst (Migration.load_data_to_mongo accepting_sink MongoClientObj [0] one_record_world)
    <> Ok (VInt 1).
Proof. split; discriminate. Qed.

(** C2, amended.  The loader returns [None] and reports through the log.
    On an empty list it calls the sink not at all: the state is unchanged but
    for the log line that says there is nothing to insert.  On a non-empty
    list of [n] records of which the sink accepts all (it answers with [n]
    inserted ids), it makes exactly one [insert_many] call with the documents
    the list denotes and logs "[n] documents insérés dans MongoDB.". *)
Theorem load_reports_the_count_in_the_log (mg : mongo) (client : mongo_client) (w : world) :
  Migration.load_data_to_mongo mg client [] w
  = (Ok VNone, set_logs (logs w ++ [(INFO, "Aucun document à insérer dans MongoDB.")]) w) /\
  forall (records : list ref) (ids : list value) (c : list dict),
    records <> [] ->
    bulk_insert mg (collection w) (deref (objects w) records) = (Ok ids, c) ->
    length ids = length records ->
    let r := Migration.load_data_to_mongo mg client records w in
    fst r = Ok VNone /\
    logs (snd r) = logs w ++ [(INFO, str_N (N.of_nat (length records))
                                     +:+ " documents insérés dans MongoDB.")] /\
    writes (snd r) = writes w ++ [deref (objects w) records] /\
    collection (snd r) = c.
Proof.
  split; [apply load_empty|].
  intros records ids c Hne Hb Hlen. cbn zeta.
  rewrite (load_ok mg client records w ids c Hne Hb). rewrite Hlen. by repeat split.
Qed.

Lemma load_reports_the_count_in_the_log_witness :
  logs (snd (Migration.load_data_to_mongo accepting_sink MongoClientObj [0] one_record_world))
  = [(INFO, "1 documents insérés dans MongoDB.")] /\
  writes (snd (Migration.load_data_to_mongo accepting_sink MongoClientObj [0] one_record_world))
  = [[[("stay", VInt 4)]]].
Proof.
  pose proof (proj2 (load_reports_the_count_in_the_log accepting_sink MongoClientObj
                       one_record_world)
                [0] [VInt 0] [[("stay", VInt 4)]]) as H.
  cbn zeta in H. destruct H as (_ & Hl & Hw & _); [discriminate|reflexivity|reflexivity|].
  split; [exact Hl|exact Hw].
Defined.

(** ** The statement *)

Lemma eval_all_elem {A B} (f : A -> outcome B) (l : list A) ys :
  eval_all f l = Ok ys -> forall y, y ∈ ys -> exists x, x ∈ l /\ f x = Ok y.
Proof.
  revert ys. induction l as [|x l IH]; intros ys; simpl.
  - intros [= <-] y Hy. by apply elem_of_nil in Hy.
  - destruct (f x) as [y0|] eqn:Hx; [|done].
    destruct (eval_all f l) as [ys0|] eqn:Hl; [|done].
    intros [= <-] y Hy. apply elem_of_cons in Hy as [->|Hy].
    + exists x. split; [by left|done].
    + destruct (IH ys0 eq_refl y Hy) as (x' & Hin & Hfx). exists x'. split; [by right|done].
Qed.

Lemma run_select_rows sel from cols rows :
  run_select sel from = Ok (cols, rows) ->
  cols = map fst sel /\
  forall row, row ∈ rows ->
    exists j, j ∈ from /\ eval_all (fun c => snd c j) sel = Ok row.
Proof.
  unfold run_select.
  destruct (eval_all _ from) as [rs|] eqn:He; [|done].
  intros [= <- <-]. split; [done|]. intros row Hrow.
  by apply (eval_all_elem _ _ _ He).
Qed.

Lemma occupancy_counts_sum db rr o : occupancy db rr = Ok o -> o = counts_sum rr.
Proof.
  unfold occupancy, counts_sum, sql_add.
  destruct (rr_number_of_adult rr) as [a|], (rr_number_of_child rr) as [c|],
    (rr_inf rr) as [i|]; simpl;
    repeat match goal with
           | |- context [if int_fits db ?z then _ else _] => destruct (int_fits db z)
           end; simpl; congruence.
Qed.

Lemma migration_query_rows db cols rows :
  Migration.query db = Ok (cols, rows) ->
  cols = Scriptrans.target_fields /\
  forall row, row ∈ rows ->
    exists j, j ∈ Migration.from_clause db /\
              extracted_record cols row = migration_record db j.
Proof.
  intros Hq. apply run_select_rows in Hq as [-> Hrows]. split; [reflexivity|].
  intros row Hrow. destruct (Hrows row Hrow) as (j & Hj & He). exists j. split; [done|].
  unfold Migration.select_list in He. cbn [eval_all snd] in He.
  destruct (occupancy db (j_rr j)) as [o|] eqn:Ho; [|done].
  apply occupancy_counts_sum in Ho as ->. injection He as <-. reflexivity.
Qed.

Lemma scriptrans_query_rows db cols rows :
  Scriptrans.query db = Ok (cols, rows) ->
  cols = Scriptrans.target_fields /\
  forall row, row ∈ rows ->
    exists j, j ∈ Scriptrans.from_clause db /\
              extracted_record cols row = scriptrans_record j.
Proof.
  intros Hq. apply run_select_rows in Hq as [-> Hrows]. split; [reflexivity|].
  intros row Hrow. destruct (Hrows row Hrow) as (j & Hj & He). exists j. split; [done|].
  unfold Scriptrans.select_list in He. cbn [eval_all snd] in He.
  destruct (occupancy db (j_rr j)) as [o|] eqn:Ho; [|done].
  apply occupancy_counts_sum in Ho as ->. injection He as <-. reflexivity.
Qed.



(** A successful extraction ran the statement and stored one new record per
    row, in the order of the rows. *)
Lemma extract_succeeds pg conn w refs w' :
  Migration.extract_data_from_postgres pg conn w = (Ok refs, w') ->
  exists cols rows,
    Migration.query (pg_db pg) = Ok (cols, rows) /\
    refs = seq (length (objects w)) (length rows) /\
    objects w' = objects w ++ map (extracted_record cols) rows.
Proof.
  intros H. destruct (extraction_error Migration.query pg) as [e|] eqn:He.
  - rewrite (extract_fails _ _ _ e He) in H. done.
  - destruct (extraction_error_none _ _ He) as (Hcur & Hexe & Hfetch & cols & rows & Hq).
    rewrite (extract_ok _ _ _ cols rows Hcur Hexe Hq Hfetch) in H.
    injection H as <- <-. exists cols, rows. by repeat split.
Qed.

Lemma extracted_lookup (h : heap) (ds : list dict) r :
  r ∈ seq (length h) (length ds) ->
  exists d, (h ++ ds) !! r = Some d /\ d ∈ ds.
Proof.
  intros Hr. apply elem_of_seq in Hr as [Hlo Hhi].
  destruct (lookup_lt_is_Some_2 ds (r - length h)) as [d Hd]; [lia|].
  exists d. split.
  - rewrite lookup_app_r by lia. done.
  - by apply list_elem_of_lookup_2 in Hd.
Qed.

Lemma documents_elem cols rows d :
  d ∈ documents cols rows ->
  exists row, row ∈ rows /\ d = map iso_entry (extracted_record cols row).
Proof.
  unfold documents. rewrite !map_fmap. intros H.
  apply list_elem_of_fmap in H as (x & -> & H).
  apply list_elem_of_fmap in H as (row & -> & H).
  exists row. split; [done|]. apply transform_extracted.
Qed.

Lemma migration_record_shape db j :
  fixed_shape (migration_record db j) /\ fixed_shape (map iso_entry (migration_record db j)).
Proof. repeat split. Qed.

Lemma scriptrans_record_shape j :
  fixed_shape (scriptrans_record j) /\ fixed_shape (map iso_entry (scriptrans_record j)).
Proof. repeat split. Qed.

Lemma migration_documents_shape db cols rows :
  Migration.query db = Ok (cols, rows) -> Forall fixed_shape (documents cols rows).
Proof.
  intros Hq. apply migration_query_rows in Hq as [_ Hrows].
  apply Forall_forall. intros d Hd.
  apply documents_elem in Hd as (row & Hrow & ->).
  destruct (Hrows row Hrow) as (j & _ & ->). apply migration_record_shape.
Qed.

Lemma scriptrans_documents_shape db cols rows :
  Scriptrans.query db = Ok (cols, rows) -> Forall fixed_shape (documents cols rows).
Proof.
  intros Hq. apply scriptrans_query_rows in Hq as [_ Hrows].
  apply Forall_forall. intros d Hd.
  apply documents_elem in Hd as (row & Hrow & ->).
  destruct (Hrows row Hrow) as (j & _ & ->). apply scriptrans_record_shape.
Qed.

(** C3, as stated, fails on the number of fields: the field list has 26
    names, and the record extracted from the one-row source has 26 fields. *)
Lemma field_set_has_not_25_names :
  length Scriptrans.target_fields <> 25 /\
  map (fun d => length (keys d))
      (objects (snd (Migration.run (no_fault scenario_db) accepting_sink []))) = [26].
Proof. split; [discriminate|reflexivity]. Qed.

(** C3, amended.  Every record has the same fixed set of 26 named fields.
    The field list names 26 distinct fields.  Every record that a successful
    extraction stores has exactly these fields, in this order, and holds an
    explicit null in the four fields without a source mapping
    ([no_show_date], [preference_guest], [preference_reservation],
    [season]); so has every row of the statement of [scriptrans.py] once it
    is made a record.  In every run of either script, every document of
    every batch handed to the sink has this shape. *)
Theorem records_share_the_26_fields :
  length Scriptrans.target_fields = 26 /\
  NoDup Scriptrans.target_fields /\
  (forall pg conn w refs w',
     Migration.extract_data_from_postgres pg conn w = (Ok refs, w') ->
     forall r, r ∈ refs -> exists d, objects w' !! r = Some d /\ fixed_shape d) /\
  (forall db cols rows,
     Scriptrans.query db = Ok (cols, rows) ->
     forall row, row ∈ rows -> fixed_shape (extracted_record cols row)) /\
  (forall pg mg docs,
     Forall (Forall fixed_shape) (writes (snd (Migration.run pg mg docs))) /\
     Forall (Forall fixed_shape) (writes (snd (Scriptrans.run pg mg docs)))).
Proof.
  split; [reflexivity|]. split; [compute_done|]. split; [|split].
  - intros pg conn w refs w' Hx r Hr.
    apply extract_succeeds in Hx as (cols & rows & Hq & -> & ->).
    replace (length rows) with (length (map (extracted_record cols) rows)) in Hr
      by apply length_map.
    apply extracted_lookup in Hr as (d & Hd & Hin). exists d. split; [done|].
    rewrite map_fmap in Hin. apply list_elem_of_fmap in Hin as (row & -> & Hrow).
    apply migration_query_rows in Hq as [_ Hrows].
    destruct (Hrows row Hrow) as (j & _ & ->). apply migration_record_shape.
  - intros db cols rows Hq row Hrow.
    apply scriptrans_query_rows in Hq as [_ Hrows].
    destruct (Hrows row Hrow) as (j & _ & ->). apply scriptrans_record_shape.
  - intros pg mg docs. split.
    + migration_cases pg mg docs; cbn [snd writes]; try by constructor.
      * constructor; [|constructor]. by eapply migration_documents_shape.
      * constructor; [|constructor]. by eapply migration_documents_shape.
    + script_cases pg mg docs; cbn [snd writes]; try by constructor.
      * constructor; [|constructor]. by eapply scriptrans_documents_shape.
      * constructor; [|constructor]. by eapply scriptrans_documents_shape.
Qed.

Lemma records_share_the_26_fields_witness :
  exists d,
    objects (snd (Migration.extract_data_from_postgres (no_fault sample_db) PgConnection
                    (initial_world []))) !! 1 = Some d /\
    fixed_shape d.
Proof.
  destruct records_share_the_26_fields as (_ & _ & H & _).
  apply (H (no_fault sample_db) PgConnection (initial_world []) [0; 1]
           (snd (Migration.extract_data_from_postgres (no_fault sample_db) PgConnection
                   (initial_world [])))).
  - reflexivity.
  - right. left.
Defined.

(** ** Occupancy *)



(** ** Ordering of timestamps *)









(** ** The two subqueries and the cancellation history *)

















Example sample_subqueries :
  Migration.preview_cancelled sample_db sample_room = VInt 2 /\
  Migration.cancelled_date sample_db sample_room
  = VDateTime (mkDateTime (mkDate 2024 2 10) 17 45 12 250000 None) /\
  Migration.cancelled_date sample_db other_room = VNone.
Proof. repeat split. Qed.

Example rejected_batch_is_logged :
  Migration.run (no_fault scenario_db) rejecting_sink [] =
  (Ok tt,
   mkWorld (documents Scriptrans.target_fields
              [[VInt 7001; VInt 10; VNone; VNone; VDate (mkDate 2024 3 1);
                VDate (mkDate 2024 3 5); VInt 4;
                VDateTime (mkDateTime (mkDate 2024 1 15) 10 30 0 0 None);
                VNone; VNone; VNone; VInt 3; VNone; VNone; VStr "AGENCY"; VInt 3;
                VNone; VNone; VNone; VInt 0; VBool false; VNone; VNone; VNone; VNone;
                VNone]])
     [(INFO, "Connexion à PostgreSQL établie avec succès.");
      (INFO, "1 enregistrements extraits de PostgreSQL.");
      (INFO, "Connexion à MongoDB établie avec succès.");
      (ERROR, "Erreur lors de l'insertion dans MongoDB: batch op errors occurred");
      (ERROR, "Erreur dans le script principal: batch op errors occurred");
      (INFO, "Connexion à PostgreSQL fermée.");
      (INFO, "Connexion à MongoDB fermée.")]
     [] Closed Closed
     (Some (Scriptrans.target_fields,
            [[VInt 7001; VInt 10; VNone; VNone; VDate (mkDate 2024 3 1);
              VDate (mkDate 2024 3 5); VInt 4;
              VDateTime (mkDateTime (mkDate 2024 1 15) 10 30 0 0 None);
              VNone; VNone; VNone; VInt 3; VNone; VNone; VStr "AGENCY"; VInt 3;
              VNone; VNone; VNone; VInt 0; VBool false; VNone; VNone; VNone; VNone;
              VNone]]))
     Closed []
     [documents Scriptrans.target_fields
        [[VInt 7001; VInt 10; VNone; VNone; VDate (mkDate 2024 3 1);
          VDate (mkDate 2024 3 5); VInt 4;
          VDateTime (mkDateTime (mkDate 2024 1 15) 10 30 0 0 None);
          VNone; VNone; VNone; VInt 3; VNone; VNone; VStr "AGENCY"; VInt 3;
          VNone; VNone; VNone; VInt 0; VBool false; VNone; VNone; VNone; VNone;
          VNone]]]
     (mkFrame (Some PgConnection) None (Some MongoClientObj))).
Proof. reflexivity. Qed.

(** * Further properties of the code *)

(** * Further properties *)

(** ** Records without dates, and objects outside the list *)

Lemma convert_item_no_date key v (d : dict) :
  isinstance_date v = false -> convert_item key v d = d.
Proof. by destruct v. Qed.

Lemma items_loop_no_date fuel : forall i (d : dict),
  no_date d -> items_loop fuel i d = d.
Proof.
  induction fuel as [|fuel IH]; intros i d Hd; simpl; [done|].
  destruct (d !! i) as [[k v]|] eqn:Hi; [|done].
  rewrite convert_item_no_date; [by apply IH|].
  unfold no_date in Hd. by apply (Forall_lookup_1 _ _ _ _ Hd Hi).
Qed.

Lemma transform_at_no_date (h : heap) r :
  (forall d, h !! r = Some d -> no_date d) -> transform_at r h = h.
Proof.
  intros H. unfold transform_at. destruct (h !! r) as [d|] eqn:Hr; [|done].
  apply list_insert_id. rewrite Hr. f_equal. unfold transform_record.
  symmetry. apply items_loop_no_date. by apply H.
Qed.

(** X1.  A record is left as it is exactly when it holds no date: the loop
    over the items changes nothing in a record without dates (whatever its
    keys), a well-formed record that comes out unchanged held no date, and
    [transform_data] on a list whose records hold no date returns the list
    and leaves the whole state untouched. *)
Theorem transform_fixes_exactly_the_dateless :
  (forall d : dict, no_date d -> transform_record d = d) /\
  (forall d : dict, NoDup (keys d) -> transform_record d = d -> no_date d) /\
  (forall (records : list ref) (w : world),
     (forall r d, r ∈ records -> objects w !! r = Some d -> no_date d) ->
     Migration.transform_data records w = (Ok records, w)).
Proof.
  split; [|split].
  - intros d Hd. by apply items_loop_no_date.
  - intros d Hnd Heq. rewrite <- Heq, (transform_record_spec d Hnd).
    apply iso_entry_no_date.
  - intros records w H. rewrite transform_data_run.
    assert (Hh : transform_heap records (objects w) = objects w).
    { unfold transform_heap. induction records as [|r rs IH]; [done|]. simpl.
      rewrite transform_at_no_date.
      - apply IH. intros r' d Hr'. apply H. by right.
      - intros d. apply H. by left. }
    by rewrite Hh, set_objects_same.
Qed.

Lemma transform_fixes_exactly_the_dateless_witness :
  transform_record [("stay", VInt 4); ("season", VNone)] = [("stay", VInt 4); ("season", VNone)] /\
  no_date [("stay", VInt 4); ("season", VNone)].
Proof.
  destruct transform_fixes_exactly_the_dateless as (H1 & H2 & _).
  assert (Hd : no_date [("stay", VInt 4); ("season", VNone)])
    by (unfold no_date; compute_done).
  split; [by apply H1|].
  apply H2; [compute_done|by apply H1].
Defined.

Lemma transform_heap_outside records : forall (h : heap) r,
  r ∉ records -> transform_heap records h !! r = h !! r.
Proof.
  induction records as [|r0 rs IH]; intros h r Hr; [done|].
  change (transform_heap (r0 :: rs) h) with (transform_heap rs (transform_at r0 h)).
  apply not_elem_of_cons in Hr as [Hne Hr].
  rewrite IH by done. rewrite transform_at_lookup.
  destruct (decide (r0 = r)); [congruence|done].
Qed.

(** X2.  [transform_data] touches no object but those its list names: every
    object of the store that the list does not reference is afterwards what
    it was before. *)
Theorem transform_leaves_other_objects (records : list ref) (w : world) (r : ref) :
  r ∉ records ->
  objects (snd (Migration.transform_data records w)) !! r = objects w !! r.
Proof.
  intros Hr. rewrite transform_data_run. cbn [snd objects set_objects].
  by apply transform_heap_outside.
Qed.

Lemma transform_leaves_other_objects_witness :
  objects (snd (Migration.transform_data [0] dated_world)) !! 1 = Some dated_record.
Proof.
  rewrite (transform_leaves_other_objects [0] dated_world 1); [reflexivity|].
  compute_done.
Defined.

(** ** The two ways of converting a batch *)

(** X3.  Converting each document as it is built, as [scriptrans.py] does, and
    building all records first and transforming the list afterwards, as
    [main] does, give the same references and the same state. *)
Theorem converting_each_or_all_agree (cols : list string) (rows : list (list value))
    (w : world) :
  (data <- for_each rows (fun row => new_dict (dict_of (zip cols row))) ;;
   Migration.transform_data data) w
  = for_each rows (Scriptrans.make_document cols) w.
Proof.
  unfold bind. rewrite for_each_new_dict, for_each_make_document, transform_data_run.
  cbn [objects set_objects]. rewrite set_objects_twice.
  replace (length rows) with (length (map (fun row => dict_of (zip cols row)) rows))
    by apply length_map.
  rewrite transform_heap_fresh. by rewrite length_map.
Qed.

(** ** Building a record from a row *)

Lemma setitem_new k v (d : dict) : k ∉ keys d -> setitem k v d = d ++ [(k, v)].
Proof.
  induction d as [|[k' v'] d IH]; simpl; intros Hk; [done|].
  apply not_elem_of_cons in Hk as [Hne Hk].
  destruct (String.eqb k' k) eqn:E.
  - apply String.eqb_eq in E. congruence.
  - by rewrite IH.
Qed.

Lemma dict_of_distinct (pairs : list (string * value)) :
  NoDup (map fst pairs) -> dict_of pairs = pairs.
Proof.
  unfold dict_of.
  assert (H : forall acc : dict, NoDup (keys acc ++ map fst pairs) ->
            fold_left (fun d kv => setitem (fst kv) (snd kv) d) pairs acc = acc ++ pairs).
  { induction pairs as [|[k v] ps IH]; intros acc Hnd; simpl.
    - by rewrite app_nil_r.
    - simpl in Hnd. rewrite setitem_new.
      + rewrite IH; [by rewrite <- app_assoc|].
        unfold keys. rewrite map_app. simpl. by rewrite <- app_assoc.
      + apply NoDup_app in Hnd as (_ & Hd & _). intros Hin. apply (Hd k Hin). by left. }
  intros Hnd. by apply (H []).
Qed.

Lemma keys_zip (cols : list string) : forall row : list value,
  map fst (zip cols row) = take (length row) cols.
Proof.
  induction cols as [|c cols IH]; intros [|v row]; simpl; try done.
  by rewrite IH.
Qed.

Lemma values_zip (cols : list string) : forall row : list value,
  map snd (zip cols row) = take (length cols) row.
Proof.
  induction cols as [|c cols IH]; intros [|v row]; simpl; try done.
  by rewrite IH.
Qed.

Lemma getitem_zip (cols : list string) : forall (row : list value) i c v,
  NoDup cols -> cols !! i = Some c -> row !! i = Some v -> getitem c (zip cols row) = Some v.
Proof.
  induction cols as [|c0 cols IH]; intros [|v0 row] i c v Hnd Hc Hv; try done.
  apply NoDup_cons in Hnd as [Hc0 Hnd]. destruct i as [|i]; simpl in *.
  - injection Hc as <-. injection Hv as <-. by rewrite String.eqb_refl.
  - destruct (String.eqb c0 c) eqn:E.
    + apply String.eqb_eq in E as ->. exfalso. apply Hc0.
      by apply list_elem_of_lookup_2 in Hc.
    + by apply (IH row i).
Qed.

(** X4.  [dict(zip(colnames, row))] with distinct column names is the row
    under its column names: the fields are the column names in their order
    (as many as the row has values), the values are those of the row (as
    many as there are columns), and the field named after column [i] holds
    value [i] of the row. *)
Theorem record_is_the_row_under_its_columns (cols : list string) (row : list value) :
  NoDup cols ->
  keys (extracted_record cols row) = take (length row) cols /\
  map snd (extracted_record cols row) = take (length cols) row /\
  (length row = length cols -> keys (extracted_record cols row) = cols) /\
  (forall i c v, cols !! i = Some c -> row !! i = Some v ->
     getitem c (extracted_record cols row) = Some v).
Proof.
  intros Hnd.
  assert (He : extracted_record cols row = zip cols row).
  { unfold extracted_record. apply dict_of_distinct. rewrite keys_zip.
    eapply sublist_NoDup; [exact Hnd|apply sublist_take]. }
  rewrite He. unfold keys. rewrite keys_zip, values_zip.
  split; [done|]. split; [done|]. split.
  - intros ->. by rewrite firstn_all.
  - intros i c v. by apply getitem_zip.
Qed.

Lemma record_is_the_row_under_its_columns_witness :
  keys (extracted_record ["stay"; "season"] [VInt 4; VNone]) = ["stay"; "season"] /\
  getitem "season" (extracted_record ["stay"; "season"] [VInt 4; VNone]) = Some VNone.
Proof.
  destruct (record_is_the_row_under_its_columns ["stay"; "season"] [VInt 4; VNone])
    as (_ & _ & Hk & Hg); [compute_done|].
  split; [by apply Hk|]. by apply (Hg 1).
Defined.

Lemma getitem_setitem k v (d : dict) k' :
  getitem k' (setitem k v d) = if String.eqb k k' then Some v else getitem k' d.
Proof.
  induction d as [|[k0 v0] d IH]; simpl.
  - done.
  - destruct (String.eqb k0 k) eqn:E; simpl.
    + apply String.eqb_eq in E as ->. by destruct (String.eqb k k').
    + rewrite IH. destruct (String.eqb k0 k') eqn:E'; [|done].
      apply String.eqb_eq in E' as ->. by rewrite String.eqb_sym, E.
Qed.

Lemma getitem_app k (d1 d2 : dict) :
  getitem k (d1 ++ d2) = match getitem k d1 with Some v => Some v | None => getitem k d2 end.
Proof.
  induction d1 as [|[k0 v0] d1 IH]; simpl; [done|].
  by destruct (String.eqb k0 k).
Qed.

(** X5.  Reading and writing a field: after [d[k] = v] the field [k] holds
    [v] and every other field holds what it held; and in
    [dict(zip(colnames, row))] a column name that occurs more than once keeps
    the value of its last occurrence. *)
Theorem record_fields_read_back :
  (forall k v (d : dict), getitem k (setitem k v d) = Some v) /\
  (forall k k' v (d : dict), k <> k' -> getitem k' (setitem k v d) = getitem k' d) /\
  (forall cols row c,
     getitem c (extracted_record cols row) = getitem c (rev (zip cols row))).
Proof.
  split; [|split].
  - intros k v d. by rewrite getitem_setitem, String.eqb_refl.
  - intros k k' v d Hne. rewrite getitem_setitem.
    destruct (String.eqb k k') eqn:E; [|done]. by apply String.eqb_eq in E.
  - intros cols row c. unfold extracted_record, dict_of.
    assert (H : forall (ps : list (string * value)) (acc : dict),
      getitem c (fold_left (fun d kv => setitem (fst kv) (snd kv) d) ps acc)
      = match getitem c (rev ps) with Some v => Some v | None => getitem c acc end).
    { induction ps as [|[k v] ps IH]; intros acc; simpl; [done|].
      rewrite IH, getitem_app, getitem_setitem. simpl.
      destruct (getitem c (rev ps)); [done|]. by destruct (String.eqb k c). }
    rewrite H. simpl. by destruct (getitem c (rev (zip cols row))).
Qed.

Lemma record_fields_read_back_witness :
  getitem "stay" (setitem "season" VNone [("stay", VInt 4)]) = Some (VInt 4).
Proof.
  rewrite (proj1 (proj2 record_fields_read_back) "season" "stay"); [reflexivity|].
  discriminate.
Defined.

(** ** The helpers that open the connections *)

(** X6.  Both helpers re-raise the error of the driver as it is and leave
    the connection as it was when they fail.  [get_postgres_connection] logs
    the failure only when the error is a [psycopg2.Error], so an error of
    another class passes through it without a log record;
    [get_mongo_client] logs every failure.  On success each returns the
    handle with the connection open and one INFO record added. *)
Theorem connection_helpers_reraise (pg : postgres) (mg : mongo) (w : world) :
  (forall e,
     connect_fault pg = Some e ->
     fst (Migration.get_postgres_connection pg w) = Raise e /\
     pg_conn_st (snd (Migration.get_postgres_connection pg w)) = pg_conn_st w /\
     logs (snd (Migration.get_postgres_connection pg w))
     = logs w ++ (if is_psycopg2_Error e
                  then [(ERROR, "Erreur de connexion à PostgreSQL: " +:+ exn_msg e)]
                  else [])) /\
  (forall e,
     client_fault mg = Some e ->
     fst (Migration.get_mongo_client mg w) = Raise e /\
     mongo_st (snd (Migration.get_mongo_client mg w)) = mongo_st w /\
     logs (snd (Migration.get_mongo_client mg w))
     = logs w ++ [(ERROR, "Erreur de connexion à MongoDB: " +:+ exn_msg e)]) /\
  (connect_fault pg = None ->
   fst (Migration.get_postgres_connection pg w) = Ok PgConnection /\
   pg_conn_st (snd (Migration.get_postgres_connection pg w)) = Open /\
   logs (snd (Migration.get_postgres_connection pg w))
   = logs w ++ [(INFO, "Connexion à PostgreSQL établie avec succès.")]) /\
  (client_fault mg = None ->
   fst (Migration.get_mongo_client mg w) = Ok MongoClientObj /\
   mongo_st (snd (Migration.get_mongo_client mg w)) = Open /\
   logs (snd (Migration.get_mongo_client mg w))
   = logs w ++ [(INFO, "Connexion à MongoDB établie avec succès.")]).
Proof.
  split; [|split; [|split]].
  - intros e H.
    unfold Migration.get_postgres_connection, try_except, bind, psycopg2_connect.
    rewrite H. destruct (is_psycopg2_Error e); cbn; [done|]. by rewrite app_nil_r.
  - intros e H. unfold Migration.get_mongo_client, try_except, bind, MongoClient.
    by rewrite H.
  - intros H.
    unfold Migration.get_postgres_connection, try_except, bind, psycopg2_connect.
    by rewrite H.
  - intros H. unfold Migration.get_mongo_client, try_except, bind, MongoClient.
    by rewrite H.
Qed.

Lemma connection_helpers_reraise_witness :
  fst (Migration.get_postgres_connection unreachable_source (initial_world []))
  = Raise (mkExn Psycopg2Error "connection refused") /\
  fst (Migration.get_mongo_client accepting_sink (initial_world [])) = Ok MongoClientObj.
Proof.
  destruct (connection_helpers_reraise unreachable_source accepting_sink (initial_world []))
    as (Hpg & _ & _ & Hmg).
  split.
  - by apply (Hpg (mkExn Psycopg2Error "connection refused")).
  - by apply Hmg.
Defined.

(** ** What the extraction does to the state *)

(** X7.  The extraction only adds to the store and to the log.  Whatever
    the server does, the objects that existed before are still there,
    unchanged and at the same references, and the sink, the connection and
    the variables of [main] are untouched; the cursor, once obtained, is
    closed on the way out.  When it returns, it returns one new reference
    per row of the result, pairwise distinct and all beyond the old store,
    and its last log record counts them; when it raises, the store is
    exactly what it was. *)
Theorem extraction_only_adds_records (pg : postgres) (conn : pg_connection) (w : world) :
  let r := Migration.extract_data_from_postgres pg conn w in
  (exists new, objects (snd r) = objects w ++ new) /\
  (exists new, logs (snd r) = logs w ++ new) /\
  collection (snd r) = collection w /\ writes (snd r) = writes w /\
  pg_conn_st (snd r) = pg_conn_st w /\ mongo_st (snd r) = mongo_st w /\
  locals (snd r) = locals w /\ stdout (snd r) = stdout w /\
  (cursor_fault pg = None -> pg_cursor_st (snd r) = Closed) /\
  (forall refs,
     fst r = Ok refs ->
     NoDup refs /\
     refs = seq (length (objects w)) (length refs) /\
     length (objects (snd r)) = length (objects w) + length refs /\
     exists cols rows,
       Migration.query (pg_db pg) = Ok (cols, rows) /\ length refs = length rows /\
       last (logs (snd r))
       = Some (INFO, str_N (N.of_nat (length refs))
                     +:+ " enregistrements extraits de PostgreSQL.")) /\
  (forall e, fst r = Raise e -> objects (snd r) = objects w).
Proof.
  cbn zeta. destruct (extraction_error Migration.query pg) as [e|] eqn:He.
  - rewrite (extract_fails _ _ _ e He). cbn [fst snd].
    assert (Hsame : forall w0 : world,
      w0 = w \/ w0 = set_pg_cursor_st Closed w \/
      (exists rs, w0 = set_pg_cursor_st Closed (set_pg_result (Some rs) w)) ->
      objects w0 = objects w /\ collection w0 = collection w /\ writes w0 = writes w /\
      pg_conn_st w0 = pg_conn_st w /\ mongo_st w0 = mongo_st w /\ locals w0 = locals w /\
      stdout w0 = stdout w /\ logs w0 = logs w).
    { intros w0 [->|[->|[rs ->]]]; by repeat split. }
    match goal with |- context [set_logs _ ?w0] =>
      assert (Hw0 : objects w0 = objects w /\ collection w0 = collection w /\
                    writes w0 = writes w /\ pg_conn_st w0 = pg_conn_st w /\
                    mongo_st w0 = mongo_st w /\ locals w0 = locals w /\
                    stdout w0 = stdout w /\ logs w0 = logs w);
      [ apply Hsame;
        destruct (cursor_fault pg), (execute_fault pg), (Migration.query (pg_db pg));
        eauto
      | assert (Hcur : cursor_fault pg = None -> pg_cursor_st w0 = Closed)
          by (by destruct (cursor_fault pg)) ]
    end.
    destruct Hw0 as (Ho & Hc & Hwr & Hpc & Hm & Hl & Hs & Hlg).
    cbn [objects logs collection writes pg_conn_st mongo_st locals stdout pg_cursor_st
         set_logs].
    rewrite ?Ho, ?Hc, ?Hwr, ?Hpc, ?Hm, ?Hl, ?Hs, ?Hlg.
    split; [exists []; by rewrite app_nil_r|]. split; [eauto|].
    repeat split; done.
  - destruct (extraction_error_none _ _ He) as (Hcur & Hexe & Hfetch & cols & rows & Hq).
    rewrite (extract_ok _ _ _ cols rows Hcur Hexe Hq Hfetch).
    cbn [fst snd objects logs collection writes pg_conn_st mongo_st locals stdout
         pg_cursor_st set_logs set_pg_cursor_st set_objects set_pg_result].
    split; [eauto|]. split; [eauto|].
    do 7 (split; [done|]). split; [|discriminate].
    intros refs [= <-]. rewrite length_seq. split; [apply NoDup_seq|].
    split; [done|]. split; [by rewrite length_app, length_map|].
    exists cols, rows. split; [done|]. split; [done|]. by rewrite last_snoc.
Qed.

Lemma extraction_only_adds_records_witness :
  NoDup [1; 2] /\
  length (objects (snd (Migration.extract_data_from_postgres (no_fault sample_db)
                          PgConnection one_record_world))) = 1 + 2.
Proof.
  pose proof (extraction_only_adds_records (no_fault sample_db) PgConnection
                one_record_world) as H.
  cbn zeta in H. destruct H as (_ & _ & _ & _ & _ & _ & _ & _ & _ & H & _).
  destruct (H [1; 2] eq_refl) as (Hnd & _ & Hlen & _). by split.
Defined.

(** ** What reaches the sink *)

Lemma documents_rows cols rows :
  documents cols rows = map (fun row => map iso_entry (extracted_record cols row)) rows.
Proof.
  unfold documents. rewrite map_map. apply map_ext. intros row. apply transform_extracted.
Qed.

(** X8.  A run calls [insert_many] at most once and never with an empty
    batch.  When it calls it, the statement had succeeded with at least one
    row and the batch is the whole result: one document per row, in the
    order of the rows, each the converted record of its row.  This holds for
    [main] and for [scriptrans.py]. *)
Theorem sink_gets_one_whole_batch (pg : postgres) (mg : mongo) (docs : list dict) :
  (writes (snd (Migration.run pg mg docs)) = [] \/
   exists cols rows,
     Migration.query (pg_db pg) = Ok (cols, rows) /\ rows <> [] /\
     writes (snd (Migration.run pg mg docs))
     = [map (fun row => map iso_entry (extracted_record cols row)) rows]) /\
  (writes (snd (Scriptrans.run pg mg docs)) = [] \/
   exists cols rows,
     Scriptrans.query (pg_db pg) = Ok (cols, rows) /\ rows <> [] /\
     writes (snd (Scriptrans.run pg mg docs))
     = [map (fun row => map iso_entry (extracted_record cols row)) rows]).
Proof.
  split.
  - migration_cases pg mg docs; cbn [snd writes]; auto;
      right; eexists _, _; (split; [eassumption|]); (split; [discriminate|]);
      by rewrite documents_rows.
  - script_cases pg mg docs; cbn [snd writes]; auto;
      right; eexists _, _; (split; [eassumption|]); (split; [discriminate|]);
      by rewrite documents_rows.
Qed.

Lemma documents_no_date cols rows : Forall no_date (documents cols rows).
Proof.
  rewrite documents_rows, map_fmap. apply Forall_fmap, Forall_forall.
  intros row _. apply iso_entry_no_date.
Qed.

(** X9.  No date leaves the pipeline: in every run of either script, no
    document of a batch handed to the sink, and no record left in the store
    at the end, holds a date or a date-time. *)
Theorem no_date_reaches_the_sink (pg : postgres) (mg : mongo) (docs : list dict) :
  Forall (Forall no_date) (writes (snd (Migration.run pg mg docs))) /\
  Forall no_date (objects (snd (Migration.run pg mg docs))) /\
  Forall (Forall no_date) (writes (snd (Scriptrans.run pg mg docs))) /\
  Forall no_date (objects (snd (Scriptrans.run pg mg docs))).
Proof.
  pose proof documents_no_date as Hd.
  split; [|split; [|split]].
  - migration_cases pg mg docs; cbn [snd writes]; auto.
  - migration_cases pg mg docs; cbn [snd objects]; auto.
  - script_cases pg mg docs; cbn [snd writes]; auto.
  - script_cases pg mg docs; cbn [snd objects]; auto.
Qed.

(** ** Running again *)

Lemma faultless_no_error query pg cols rows :
  faultless pg -> query (pg_db pg) = Ok (cols, rows) ->
  extraction_error query pg = None /\ statement_error query pg = None.
Proof.
  intros (Hc & Hcu & He & Hf) Hq. unfold extraction_error, statement_error.
  by rewrite Hcu, He, Hq, Hf.
Qed.

Lemma migration_run_appends pg mg docs cols rows :
  faultless pg -> client_fault mg = None -> sink_appends mg ->
  Migration.query (pg_db pg) = Ok (cols, rows) ->
  collection (snd (Migration.run pg mg docs)) = docs ++ documents cols rows.
Proof.
  intros (Hc & Hcu & He & Hf) Hcli Happ Hq.
  destruct rows as [|row rows].
  - rewrite (run_nothing_to_load pg mg docs cols [] Hc Hcu He Hq Hf Hcli eq_refl).
    cbn [snd collection]. unfold documents. simpl. by rewrite app_nil_r.
  - destruct (Happ docs (documents cols (row :: rows))) as [ids Hb].
    by rewrite (run_loaded pg mg docs cols (row :: rows) Hc Hcu He Hq Hf ids _ Hcli
                  ltac:(discriminate) Hb).
Qed.

Lemma script_run_appends pg mg docs cols rows :
  faultless pg -> client_fault mg = None -> sink_appends mg ->
  Scriptrans.query (pg_db pg) = Ok (cols, rows) ->
  collection (snd (Scriptrans.run pg mg docs)) = docs ++ documents cols rows.
Proof.
  intros (Hc & Hcu & He & Hf) Hcli Happ Hq.
  destruct rows as [|row rows].
  - rewrite (script_nothing_to_load pg mg docs cols [] Hc Hcu Hcli He Hq Hf eq_refl).
    cbn [snd collection]. unfold documents. simpl. by rewrite app_nil_r.
  - destruct (Happ docs (documents cols (row :: rows))) as [ids Hb].
    by rewrite (script_loaded pg mg docs cols (row :: rows) Hc Hcu Hcli He Hq Hf ids _
                  ltac:(discriminate) Hb).
Qed.

(** X10.  Running again loads again.  With a server that raises nowhere and
    a sink that takes every batch and appends it, a run leaves in the
    collection what was there followed by the documents of the batch, and a
    second run on what the first left appends the same documents once more:
    [2 * n] new documents for a result of [n] rows.  Neither script looks at
    what the collection holds. *)
Theorem running_twice_loads_twice (pg : postgres) (mg : mongo) (docs : list dict)
    (cols : list string) (rows : list (list value)) :
  faultless pg -> client_fault mg = None -> sink_appends mg ->
  (Migration.query (pg_db pg) = Ok (cols, rows) ->
   let once := collection (snd (Migration.run pg mg docs)) in
   let twice := collection (snd (Migration.run pg mg once)) in
   once = docs ++ documents cols rows /\
   twice = docs ++ documents cols rows ++ documents cols rows /\
   length twice = length docs + 2 * length rows) /\
  (Scriptrans.query (pg_db pg) = Ok (cols, rows) ->
   let once := collection (snd (Scriptrans.run pg mg docs)) in
   let twice := collection (snd (Scriptrans.run pg mg once)) in
   once = docs ++ documents cols rows /\
   twice = docs ++ documents cols rows ++ documents cols rows /\
   length twice = length docs + 2 * length rows).
Proof.
  intros Hpg Hcli Happ. split; intros Hq; cbn zeta.
  - rewrite !(migration_run_appends pg mg _ cols rows Hpg Hcli Happ Hq).
    split; [done|]. rewrite <- app_assoc. split; [done|].
    rewrite !length_app. unfold documents. rewrite !length_map. lia.
  - rewrite !(script_run_appends pg mg _ cols rows Hpg Hcli Happ Hq).
    split; [done|]. rewrite <- app_assoc. split; [done|].
    rewrite !length_app. unfold documents. rewrite !length_map. lia.
Qed.

Lemma accepting_sink_appends : sink_appends accepting_sink.
Proof. intros coll batch. eexists. reflexivity. Qed.

Lemma running_twice_loads_twice_witness :
  length (collection (snd (Migration.run (no_fault sample_db) accepting_sink
            (collection (snd (Migration.run (no_fault sample_db) accepting_sink []))))))
  = 0 + 2 * 2.
Proof.
  destruct (running_twice_loads_twice (no_fault sample_db) accepting_sink []
              Scriptrans.target_fields
              (match Migration.query sample_db with Ok rs => snd rs | Raise _ => [] end))
    as [H _].
  - by repeat split.
  - reflexivity.
  - apply accepting_sink_appends.
  - cbn zeta in H. destruct (H eq_refl) as (_ & _ & Hlen). exact Hlen.
Defined.

(** ** The counts the two scripts report *)

(** X11.  The two scripts count differently.  After a bulk insert that the
    sink answers with a list of inserted ids, [main] logs the number of ids
    the sink returned, whereas [scriptrans.py] prints the number of
    documents it sent, whatever the sink answered. *)
Theorem reported_counts (pg : postgres) (mg : mongo) (docs : list dict)
    (cols : list string) (rows : list (list value)) (ids : list value) (c : list dict) :
  faultless pg -> client_fault mg = None -> rows <> [] ->
  bulk_insert mg docs (documents cols rows) = (Ok ids, c) ->
  (Migration.query (pg_db pg) = Ok (cols, rows) ->
   (INFO, str_N (N.of_nat (length ids)) +:+ " documents insérés dans MongoDB.")
     ∈ logs (snd (Migration.run pg mg docs))) /\
  (Scriptrans.query (pg_db pg) = Ok (cols, rows) ->
   stdout (snd (Scriptrans.run pg mg docs))
   = ["Inserted " +:+ str_N (N.of_nat (length rows)) +:+ " documents into MongoDB."]).
Proof.
  intros (Hc & Hcu & He & Hf) Hcli Hrows Hb. split; intros Hq.
  - rewrite (run_loaded pg mg docs cols rows Hc Hcu He Hq Hf ids c Hcli Hrows Hb).
    cbn [snd logs]. unfold extracted_log, closed_log. set_solver.
  - by rewrite (script_loaded pg mg docs cols rows Hc Hcu Hcli He Hq Hf ids c Hrows Hb).
Qed.

Lemma reported_counts_witness :
  (INFO, "1 documents insérés dans MongoDB.")
    ∈ logs (snd (Migration.run (no_fault sample_db) short_sink [])).
Proof.
  destruct (reported_counts (no_fault sample_db) short_sink []
              Scriptrans.target_fields
              (match Migration.query sample_db with Ok rs => snd rs | Raise _ => [] end)
              [VInt 0]
              (documents Scriptrans.target_fields
                 (match Migration.query sample_db with Ok rs => snd rs | Raise _ => [] end)))
    as [H _].
  - by repeat split.
  - reflexivity.
  - discriminate.
  - reflexivity.
  - by apply H.
Defined.

(** ** Errors in the log *)

Ltac open_body :=
  unfold Migration.main_body, Migration.get_postgres_connection, Migration.get_mongo_client,
    Migration.transform_data, try_except, bind, psycopg2_connect, MongoClient;
  world_step.

Lemma body_outcome pg mg docs :
  fst (Migration.main_body pg mg (initial_world docs))
  = match run_error pg mg docs with Some e => Raise e | None => Ok tt end.
Proof.
  unfold run_error.
  destruct (connect_fault pg) as [e|] eqn:Hconn.
  { open_body. rewrite Hconn. by destruct (is_psycopg2_Error e). }
  destruct (extraction_error Migration.query pg) as [e|] eqn:Hext.
  { open_body. rewrite Hconn. world_step. by rewrite (extract_fails _ _ _ e Hext). }
  destruct (extraction_error_none _ _ Hext) as (Hcur & Hexe & Hfetch & cols & rows & Hq).
  rewrite Hq.
  destruct (client_fault mg) as [e|] eqn:Hcli.
  { open_body. rewrite Hconn. world_step.
    rewrite (extract_ok _ _ _ cols rows Hcur Hexe Hq Hfetch). world_step.
    rewrite Hcli. reflexivity. }
  open_body. rewrite Hconn. world_step.
  rewrite (extract_ok _ _ _ cols rows Hcur Hexe Hq Hfetch). world_step.
  rewrite Hcli. unfold is_Exception. world_step. rewrite transform_heap_all.
  destruct rows as [|row rows]; [reflexivity|].
  assert (Hd : deref (map transform_record (map (extracted_record cols) (row :: rows)))
                (seq 0 (length (row :: rows))) = documents cols (row :: rows)).
  { apply deref_all. unfold documents. by rewrite !length_map. }
  cbn [length] in Hd.
  destruct (bulk_insert mg docs (documents cols (row :: rows))) as [[ids|e] c] eqn:Hb.
  - rewrite (load_ok mg _ _ _ ids c); world_step; rewrite ?Hd; [done|discriminate|done].
  - rewrite (load_fails mg _ _ _ e c); world_step; rewrite ?Hd; [done|discriminate|done].
Qed.

(** X12.  The log tells a failed run from a successful one, which the exit
    status does not.  The body of [main] raises exactly the first error
    among the connection, the extraction, the creation of the client and the
    bulk insert.  When there is none, every record of the log is an INFO
    record; when there is one, the log holds the ERROR record of the
    top-level handler with the message of that error. *)
Theorem log_tells_failure (pg : postgres) (mg : mongo) (docs : list dict) :
  fst (Migration.main_body pg mg (initial_world docs))
  = match run_error pg mg docs with Some e => Raise e | None => Ok tt end /\
  match run_error pg mg docs with
  | None => Forall (fun r => fst r = INFO) (logs (snd (Migration.run pg mg docs)))
  | Some e =>
      (ERROR, "Erreur dans le script principal: " +:+ exn_msg e)
        ∈ logs (snd (Migration.run pg mg docs))
  end.
Proof.
  split; [apply body_outcome|].
  unfold run_error.
  migration_cases pg mg docs; rewrite ?Hq, ?Hb; cbn [fst snd logs];
    unfold connect_error_log, extract_error_log, extracted_log, closed_log,
      main_error_log;
    try (repeat constructor; done);
    try (destruct (is_psycopg2_Error e)); set_solver.
Qed.

(** ** The left joins *)
















(** ** The count of cancelled rooms *)

Lemma sql_eq_same a b c : sql_eq a b = true -> sql_eq c a = sql_eq c b.
Proof.
  destruct a as [x|], b as [y|]; simpl; try done.
  intros H. apply Z.eqb_eq in H as ->. done.
Qed.

(** X15.  [preview_cancelled] is a property of the guest and counts the row
    itself.  It is 0 for a reservation-room without a master guest; two
    reservation-rooms of the same master guest get the same count; and a
    reservation-room that has a master guest and is itself in a cancelled
    state is counted in its own figure, which is then at least 1. *)
Theorem preview_cancelled_is_per_guest (db : database) :
  (forall rr, rr_master_guest_id rr = None -> Migration.preview_cancelled db rr = VInt 0) /\
  (forall r1 r2,
     sql_eq (rr_master_guest_id r1) (rr_master_guest_id r2) = true ->
     Migration.preview_cancelled db r1 = Migration.preview_cancelled db r2) /\
  (forall rr,
     rr ∈ reservation_rooms db ->
     rr_master_guest_id rr <> None ->
     is_cancelled_state db (rr_reservation_state_id rr) = true ->
     exists n, Migration.preview_cancelled db rr = VInt n /\ (1 <= n)%Z).
Proof.
  split; [|split].
  - intros rr Hnone. unfold Migration.preview_cancelled, Migration.cancelled_rooms.
    rewrite Hnone.
    assert (H : forall l : list (reservation_rooms_row * reservation_states_row),
      List.filter
        (fun p => sql_eq (rr_master_guest_id (fst p)) None
                  && sql_text_eq (st_system_value (snd p)) "cancelled") l = []).
    { induction l as [|p l IH]; [done|]. simpl.
      by destruct (rr_master_guest_id (fst p)). }
    by rewrite H.
  - intros r1 r2 Heq. unfold Migration.preview_cancelled, Migration.cancelled_rooms.
    do 3 f_equal. apply List.filter_ext. intros p.
    by rewrite (sql_eq_same _ _ (rr_master_guest_id (fst p)) Heq).
  - intros rr Hrr Hguest Hstate. eexists. split; [reflexivity|].
    unfold is_cancelled_state in Hstate.
    apply existsb_exists in Hstate as (s & Hs & Hc).
    apply andb_true_iff in Hc as [Hid Hcan].
    assert (Hin : In (rr, s) (Migration.cancelled_rooms db rr)).
    { unfold Migration.cancelled_rooms, inner_join. apply filter_In. split.
      - apply in_flat_map. exists rr. split; [by apply list_elem_of_In|].
        apply in_map. apply filter_In. by split.
      - simpl. rewrite Hcan, andb_true_r.
        destruct (rr_master_guest_id rr); [|done]. simpl. apply Z.eqb_refl. }
    destruct (Migration.cancelled_rooms db rr); [done|]. simpl. lia.
Qed.

Lemma preview_cancelled_is_per_guest_witness :
  Migration.preview_cancelled sample_db sample_room
  = Migration.preview_cancelled sample_db other_room /\
  exists n, Migration.preview_cancelled sample_db sample_room = VInt n /\ (1 <= n)%Z.
Proof.
  destruct (preview_cancelled_is_per_guest sample_db) as (_ & Hsame & Hself).
  split.
  - by apply Hsame.
  - apply Hself; [by left|discriminate|reflexivity].
Defined.

(** ** The order of ISO-8601 dates *)

Lemma compare_app (s1 : string) : forall s2 t1 t2,
  String.length s1 = String.length s2 ->
  String.compare (s1 +:+ t1) (s2 +:+ t2)
  = match String.compare s1 s2 with Eq => String.compare t1 t2 | c => c end.
Proof.
  induction s1 as [|c1 s1 IH]; intros [|c2 s2] t1 t2 Hlen; try done.
  change (String.compare (String c1 (s1 +:+ t1)) (String c2 (s2 +:+ t2))
          = match String.compare (String c1 s1) (String c2 s2) with
            | Eq => String.compare t1 t2
            | c => c
            end).
  simpl. destruct (Ascii.compare c1 c2); [|done|done].
  apply IH. simpl in Hlen. lia.
Qed.

Lemma N_compare_shift (p a b : N) : (p + a ?= p + b)%N = (a ?= b)%N.
Proof.
  destruct (N.compare_spec a b) as [->|H|H].
  - apply N.compare_refl.
  - apply N.compare_lt_iff. lia.
  - apply N.compare_gt_iff. lia.
Qed.

Lemma compare_digit n m :
  Ascii.compare (digit n) (digit m) = (n mod 10 ?= m mod 10)%N.
Proof.
  unfold Ascii.compare, digit.
  assert (Hn : (n mod 10 < 10)%N) by (apply N.mod_lt; lia).
  assert (Hm : (m mod 10 < 10)%N) by (apply N.mod_lt; lia).
  rewrite !N_ascii_embedding by lia. apply N_compare_shift.
Qed.

Lemma compare_two_digits (a a' q q' : N) :
  (a < 10)%N -> (a' < 10)%N ->
  (a + 10 * q ?= a' + 10 * q')%N
  = match (q ?= q')%N with Eq => (a ?= a')%N | c => c end.
Proof.
  intros Ha Ha'.
  destruct (N.compare_spec q q') as [->|Hlt|Hgt].
  - rewrite !(N.add_comm _ (10 * q')). apply N_compare_shift.
  - apply N.compare_lt_iff. lia.
  - apply N.compare_gt_iff. lia.
Qed.

Lemma compare_digits k : forall n m,
  String.compare (digits k n) (digits k m)
  = (n mod 10 ^ N.of_nat k ?= m mod 10 ^ N.of_nat k)%N.
Proof.
  induction k as [|k IH]; intros n m.
  - simpl. by rewrite !N.mod_1_r.
  - simpl digits. rewrite compare_app by (by rewrite !digits_length).
    rewrite IH. simpl String.compare. rewrite compare_digit.
    rewrite Nat2N.inj_succ, N.pow_succ_r'.
    rewrite !(N.Div0.mod_mul_r _ 10).
    rewrite compare_two_digits by (apply N.mod_lt; lia).
    destruct (_ ?= _)%N; [|done|done]. by destruct (_ ?= _)%N.
Qed.

Lemma compare_digits_small k n m :
  (n < 10 ^ N.of_nat k)%N -> (m < 10 ^ N.of_nat k)%N ->
  String.compare (digits k n) (digits k m) = (n ?= m)%N.
Proof. intros Hn Hm. rewrite compare_digits. by rewrite !N.mod_small. Qed.

Lemma string_compare_refl s : String.compare s s = Eq.
Proof.
  induction s as [|c s IH]; simpl; [done|].
  unfold Ascii.compare. by rewrite N.compare_refl.
Qed.

Lemma compare_dash s t : String.compare ("-" +:+ s) ("-" +:+ t) = String.compare s t.
Proof. reflexivity. Qed.

(** X16.  The ISO-8601 text keeps the order of dates.  For two dates within
    the range of [datetime.date], comparing their texts character by
    character gives the order of the dates; in particular different dates
    have different texts, so the conversion loses no date. *)
Theorem iso_text_orders_as_dates (d1 d2 : date) :
  valid_date d1 -> valid_date d2 ->
  String.compare (date_isoformat d1) (date_isoformat d2) = date_compare d1 d2 /\
  (date_isoformat d1 = date_isoformat d2 -> d1 = d2).
Proof.
  intros H1 H2.
  assert (Hc : String.compare (date_isoformat d1) (date_isoformat d2) = date_compare d1 d2).
  { rewrite (date_isoformat_shape d1 H1), (date_isoformat_shape d2 H2).
    destruct H1 as (Hy1 & Hm1 & Hd1), H2 as (Hy2 & Hm2 & Hd2).
    rewrite compare_app by (by rewrite !digits_length).
    rewrite compare_dash.
    rewrite compare_app by (by rewrite !digits_length).
    rewrite compare_dash.
    rewrite !compare_digits_small;
      try (change (10 ^ N.of_nat 2)%N with 100%N; lia);
      try (change (10 ^ N.of_nat 4)%N with 10000%N; lia).
    reflexivity. }
  split; [exact Hc|].
  intros Heq. rewrite Heq in Hc.
  assert (Hrefl : String.compare (date_isoformat d2) (date_isoformat d2) = Eq).
  { apply string_compare_refl. }
  rewrite Hrefl in Hc. unfold date_compare in Hc.
  destruct d1 as [y1 m1 dd1], d2 as [y2 m2 dd2]; simpl in Hc.
  destruct (N.compare_spec y1 y2); try done.
  destruct (N.compare_spec m1 m2); try done.
  destruct (N.compare_spec dd1 dd2); try done.
  by subst.
Qed.

Lemma iso_text_orders_as_dates_witness :
  String.compare (date_isoformat (mkDate 2023 12 24)) (date_isoformat (mkDate 2024 3 1)) = Lt.
Proof.
  destruct (iso_text_orders_as_dates (mkDate 2023 12 24) (mkDate 2024 3 1)) as [H _].
  - unfold valid_date; simpl; lia.
  - unfold valid_date; simpl; lia.
  - rewrite H. reflexivity.
Defined.

(** ** Settings *)

(** X17.  The settings of [main] fall back on those of [scriptrans.py].
    When none of the eight variables is set, [main] connects with exactly the
    arguments and writes to exactly the sink that [scriptrans.py] has
    hard-coded.  The settings depend on these eight variables only.  The
    port is an integer as long as [POSTGRES_PORT] is not set and the text of
    the variable once it is. *)
Theorem settings_fall_back_on_the_script (environ : gmap string string) :
  ((forall k, k ∈ MigrationSettings.variables -> environ !! k = None) ->
   MigrationSettings.postgres_args environ = ScriptransSettings.pg_config /\
   MigrationSettings.mongo_target environ = ScriptransSettings.mongo_target) /\
  (forall environ' : gmap string string,
     (forall k, k ∈ MigrationSettings.variables -> environ !! k = environ' !! k) ->
     MigrationSettings.postgres_args environ = MigrationSettings.postgres_args environ' /\
     MigrationSettings.mongo_target environ = MigrationSettings.mongo_target environ') /\
  (forall k v,
     k ∉ MigrationSettings.variables ->
     MigrationSettings.postgres_args (<[k := v]> environ)
     = MigrationSettings.postgres_args environ /\
     MigrationSettings.mongo_target (<[k := v]> environ)
     = MigrationSettings.mongo_target environ) /\
  (environ !! "POSTGRES_PORT" = None ->
   arg_port (MigrationSettings.postgres_args environ) = VInt 5432) /\
  (forall s, environ !! "POSTGRES_PORT" = Some s ->
   arg_port (MigrationSettings.postgres_args environ) = VStr s).
Proof.
  assert (Hdep : forall environ' : gmap string string,
     (forall k, k ∈ MigrationSettings.variables -> environ !! k = environ' !! k) ->
     MigrationSettings.postgres_args environ = MigrationSettings.postgres_args environ' /\
     MigrationSettings.mongo_target environ = MigrationSettings.mongo_target environ').
  { intros environ' H.
    unfold MigrationSettings.postgres_args, MigrationSettings.mongo_target, getenv.
    rewrite <- !H by (apply list_elem_of_In; simpl; tauto). done. }
  split; [|split; [exact Hdep|split; [|split]]].
  - intros H.
    unfold MigrationSettings.postgres_args, MigrationSettings.mongo_target, getenv.
    rewrite !H by (apply list_elem_of_In; simpl; tauto). done.
  - intros k v Hk. destruct (Hdep (<[k := v]> environ)) as [-> ->]; [|done].
    intros k' Hk'. rewrite lookup_insert_ne; [done|]. congruence.
  - intros H. unfold MigrationSettings.postgres_args, getenv. simpl. by rewrite H.
  - intros s H. unfold MigrationSettings.postgres_args, getenv. simpl. by rewrite H.
Qed.

Lemma settings_fall_back_on_the_script_witness :
  MigrationSettings.postgres_args ∅ = ScriptransSettings.pg_config /\
  arg_port (MigrationSettings.postgres_args other_port) = VStr "5433".
Proof.
  split.
  - apply (proj1 (settings_fall_back_on_the_script ∅)). intros k _. apply lookup_empty.
  - apply (proj2 (proj2 (proj2 (proj2 (settings_fall_back_on_the_script other_port))))).
    reflexivity.
Defined.

(** ** Where a missing sink stops each script *)

(** X18.  The two scripts open the sink at different points.  When the
    MongoDB client cannot be created, [scriptrans.py] has not executed its
    statement: the cursor holds no result and no document exists.  [main],
    whose extraction succeeded, has by then run the statement and converted
    every record; it just hands none of them to the sink. *)
Theorem client_failure_point (pg : postgres) (mg : mongo) (docs : list dict) (e : exn) :
  connect_fault pg = None -> cursor_fault pg = None -> client_fault mg = Some e ->
  (pg_result (snd (Scriptrans.run pg mg docs)) = None /\
   objects (snd (Scriptrans.run pg mg docs)) = [] /\
   writes (snd (Scriptrans.run pg mg docs)) = []) /\
  (forall cols rows,
     execute_fault pg = None -> fetchall_fault pg = None ->
     Migration.query (pg_db pg) = Ok (cols, rows) ->
     pg_result (snd (Migration.run pg mg docs)) = Some (cols, rows) /\
     objects (snd (Migration.run pg mg docs)) = documents cols rows /\
     writes (snd (Migration.run pg mg docs)) = []).
Proof.
  intros Hconn Hcur Hcli. split.
  - by rewrite (script_client_fails pg mg docs e Hconn Hcur Hcli).
  - intros cols rows Hexe Hfetch Hq.
    by rewrite (run_client_fails pg mg docs cols rows Hconn Hcur Hexe Hq Hfetch e Hcli).
Qed.

Lemma client_failure_point_witness :
  pg_result (snd (Scriptrans.run (no_fault sample_db) no_sink [])) = None /\
  length (objects (snd (Migration.run (no_fault sample_db) no_sink []))) = 2.
Proof.
  destruct (client_failure_point (no_fault sample_db) no_sink []
              (mkExn PyMongoError "invalid URI") eq_refl eq_refl eq_refl) as [Hs Hm].
  split; [apply Hs|].
  destruct (Hm Scriptrans.target_fields
              (match Migration.query sample_db with Ok rs => snd rs | Raise _ => [] end)
              eq_refl eq_refl eq_refl) as (_ & -> & _).
  reflexivity.
Defined.
